(** * tidit: the timestamp insertion-position decision engine

    A shallow embedding of the plugin's pure logic (the helpers of
    [utils.ts], the resolver [getInsertPositionInLineFromText], and the
    parts of [main.ts] around it: the formatter, the code-fence predicate,
    the rate guard of the key handler and the two numeric settings
    handlers), followed by the properties established about it.

    JavaScript strings are sequences of UTF-16 code units, so a string is a
    [list N]; [length], [substring] and the regular-expression classes all
    count code units, as the engine does.  The date library (moment) is an
    external collaborator and enters as an interface, [MomentLib]. *)

From Stdlib Require Import ZArith NArith List Bool Lia.
From Stdlib Require Import Strings.Ascii Strings.String.
From Stdlib Require Import DecimalN.
Import ListNotations.

Local Open Scope Z_scope.

(* ------------------------------------------------------------------ *)
(** ** JavaScript values used by the plugin *)

Module JS.

(** A string value: its UTF-16 code units. *)
Definition jsstring : Type := list N.

(** A string literal of the source (ASCII only). *)
Definition lit (s : string) : jsstring :=
  map N_of_ascii (list_ascii_of_string s).

(** [s.length]. *)
Definition len (s : jsstring) : Z := Z.of_nat (List.length s).

Fixpoint eqs (a b : jsstring) : bool :=
  match a, b with
  | [], [] => true
  | x :: a', y :: b' => N.eqb x y && eqs a' b'
  | _, _ => false
  end.

(** The class [\s] of a regular expression, which is also the white space
    and line terminator set stripped by [trim] and skipped by [parseInt]:
    TAB, LF, VT, FF, CR, SP, NBSP, U+1680, U+2000..U+200A, U+2028, U+2029,
    U+202F, U+205F, U+3000, U+FEFF. *)
Definition isSpace (c : N) : bool :=
  ((9 <=? c) && (c <=? 13) || (c =? 32) || (c =? 160) || (c =? 5760)
   || (8192 <=? c) && (c <=? 8202) || (c =? 8232) || (c =? 8233)
   || (c =? 8239) || (c =? 8287) || (c =? 12288) || (c =? 65279))%N.

(** The class [\d]: the ten ASCII digits. *)
Definition isDigit (c : N) : bool := ((48 <=? c) && (c <=? 57))%N.

(** A number as the settings code meets it: [parseInt] yields an integer
    or [NaN].  Integers are kept exact (beyond 2^53 a double rounds). *)
Inductive jsnum : Type :=
| NaN : jsnum
| Num : Z -> jsnum.

(** [Number.isNaN] / [isNaN] on a number. *)
Definition isNaN (x : jsnum) : bool :=
  match x with NaN => true | Num _ => false end.

(** [Math.min(a, b)]: [NaN] if either argument is. *)
Definition Math_min (a b : jsnum) : jsnum :=
  match a, b with
  | Num x, Num y => Num (Z.min x y)
  | _, _ => NaN
  end.

(** [Math.max(a)] with a single argument: the argument itself. *)
Definition Math_max1 (a : jsnum) : jsnum := a.

(** [a < b] on numbers: false as soon as one side is [NaN]. *)
Definition lt (a b : jsnum) : bool :=
  match a, b with
  | Num x, Num y => Z.ltb x y
  | _, _ => false
  end.

(** [s.substring(a, b)]: both indices are clamped to [0, s.length] and
    swapped when out of order. *)
Definition clampIndex (s : jsstring) (i : Z) : nat :=
  Z.to_nat (Z.min (Z.max i 0) (len s)).

Definition substring (s : jsstring) (a b : Z) : jsstring :=
  let i := clampIndex s a in
  let j := clampIndex s b in
  let lo := Nat.min i j in
  let hi := Nat.max i j in
  firstn (hi - lo)%nat (skipn lo s).

(** [s.startsWith(p)]. *)
Fixpoint startsWith (s p : jsstring) {struct p} : bool :=
  match p, s with
  | [], _ => true
  | y :: p', x :: s' => N.eqb x y && startsWith s' p'
  | _ :: _, [] => false
  end.

(** [s.endsWith(p)]. *)
Definition endsWith (s p : jsstring) : bool :=
  startsWith (rev s) (rev p).

(** [s.trim()]. *)
Fixpoint trimStart (s : jsstring) : jsstring :=
  match s with
  | c :: s' => if isSpace c then trimStart s' else s
  | [] => []
  end.

Definition trim (s : jsstring) : jsstring :=
  rev (trimStart (rev (trimStart s))).

(** Value of a digit in radix 10 or 16, if it is one. *)
Definition digitValue (radix : Z) (c : N) : option Z :=
  let v :=
    if isDigit c then Some (Z.of_N c - 48)
    else if ((97 <=? c) && (c <=? 102))%N then Some (Z.of_N c - 87)
    else if ((65 <=? c) && (c <=? 70))%N then Some (Z.of_N c - 55)
    else None in
  match v with
  | Some d => if Z.ltb d radix then Some d else None
  | None => None
  end.

(** The longest prefix of digits, folded into a value; [None] when the
    prefix is empty. *)
Fixpoint digitsFrom (radix : Z) (acc : option Z) (s : jsstring) : option Z :=
  match s with
  | c :: s' =>
      match digitValue radix c with
      | Some d =>
          digitsFrom radix
            (Some (match acc with Some a => a * radix + d | None => d end)) s'
      | None => acc
      end
  | [] => acc
  end.

(** [parseInt(s)] without a radix: leading white space is skipped, one sign
    is read, a [0x]/[0X] prefix selects radix 16, then the longest digit
    prefix is the value; [NaN] when that prefix is empty.  The value here
    is the integer the digits denote; the built-in returns the double
    nearest to it, which is that integer as long as its magnitude is at
    most 2^53. *)
Definition parseInt (s : jsstring) : jsnum :=
  let s1 := trimStart s in
  let '(sign, s2) :=
    match s1 with
    | 45%N :: r => ((-1)%Z, r)
    | 43%N :: r => (1%Z, r)
    | _ => (1%Z, s1)
    end in
  let '(radix, s3) :=
    match s2 with
    | 48%N :: 120%N :: r => (16%Z, r)
    | 48%N :: 88%N :: r => (16%Z, r)
    | _ => (10%Z, s2)
    end in
  match digitsFrom radix None s3 with
  | Some v => Num (sign * v)
  | None => NaN
  end.

End JS.

Import JS.

(* ------------------------------------------------------------------ *)
(** ** Regular expressions of the source *)

Module Regex.

(** The two patterns of [utils.ts] and the two of [main.ts] are built from
    character classes, greedy [*] and [+] over a class, concatenation and
    alternation, anchored at the start of the line. *)
Inductive regex : Type :=
| Cls : (N -> bool) -> regex
| Star : (N -> bool) -> regex
| Plus : (N -> bool) -> regex
| Cat : regex -> regex -> regex
| Alt : regex -> regex -> regex.

Section Matcher.
Variable A : Type.

(** Greedy repetition of a class: take one more unit first and give it
    back only if the rest of the pattern then fails. *)
Fixpoint star (p : N -> bool) (s : jsstring)
         (k : jsstring -> option A) : option A :=
  match s with
  | c :: s' =>
      if p c then
        match star p s' k with
        | Some r => Some r
        | None => k s
        end
      else k s
  | [] => k s
  end.

(** Backtracking matcher in continuation style: the first success in the
    engine's priority order. *)
Fixpoint rmatch (r : regex) (s : jsstring)
         (k : jsstring -> option A) : option A :=
  match r with
  | Cls p =>
      match s with
      | c :: s' => if p c then k s' else None
      | [] => None
      end
  | Star p => star p s k
  | Plus p =>
      match s with
      | c :: s' => if p c then star p s' k else None
      | [] => None
      end
  | Cat a b => rmatch a s (fun s' => rmatch b s' k)
  | Alt a b =>
      match rmatch a s k with
      | Some x => Some x
      | None => rmatch b s k
      end
  end.
End Matcher.

Arguments star {A} p s k.
Arguments rmatch {A} r s k.

(** [s.match(/^r/)]: the length of the matched text ([index] is 0 under
    the anchor), or no match. *)
Definition exec (r : regex) (s : jsstring) : option nat :=
  rmatch r s (fun rest => Some (List.length s - List.length rest)%nat).

(** [/^r/.test(s)]. *)
Definition test (r : regex) (s : jsstring) : bool :=
  match exec r s with Some _ => true | None => false end.

Definition oneOf (cs : list N) (c : N) : bool := existsb (N.eqb c) cs.
Definition noneOf (cs : list N) (c : N) : bool := negb (oneOf cs c).

End Regex.

Import Regex.

(* ------------------------------------------------------------------ *)
(** ** The date library, as the engine uses it *)

(** Outcome of [moment(text, format, true)] followed by [isValid()], inside
    the [try] block of the resolver. *)
Inductive ParseOutcome : Type :=
| Valid : ParseOutcome
| Invalid : ParseOutcome
| Raised : ParseOutcome.

(** The operations of moment and moment-timezone called by the plugin.
    [Instant] is a moment object; the current one, [moment()], is passed to
    the functions that read the clock. *)
Record MomentLib : Type := {
  Instant : Type;
  (** [m.format(pattern)] *)
  mformat : Instant -> jsstring -> jsstring;
  (** [moment(text, pattern, true).isValid()], evaluated when the clock
      shows the given instant (missing date fields default to today) *)
  mparse : Instant -> jsstring -> jsstring -> ParseOutcome;
  (** [momentTimezone.tz(m, zone)] *)
  mtz : Instant -> jsstring -> Instant;
  (** [m.utc()] *)
  mutc : Instant -> Instant;
  (** [m.utcOffset(minutes)] *)
  mutcOffset : Instant -> jsnum -> Instant;
  (** [m.valueOf()]: milliseconds since the epoch *)
  mvalueOf : Instant -> Z
}.

(* ------------------------------------------------------------------ *)
(** ** utils.ts *)

Module Utils.

(** [[-*+]] *)
Definition unorderedMarker : N -> bool := oneOf [45; 42; 43]%N.
(** [[\.\)]] *)
Definition orderedDelimiter : N -> bool := oneOf [46; 41]%N.

(** [/^\s*([-*+]|\d+[\.\)])\s+/] *)
Definition LIST_BULLET_REGEX : regex :=
  Cat (Star isSpace)
      (Cat (Alt (Cls unorderedMarker)
                (Cat (Plus isDigit) (Cls orderedDelimiter)))
           (Plus isSpace)).

(** [/^\s*([-*+]|\d+[\.\)])\s+\[[^\]]*\]\s/] *)
Definition LIST_TASK_REGEX : regex :=
  Cat (Star isSpace)
      (Cat (Alt (Cls unorderedMarker)
                (Cat (Plus isDigit) (Cls orderedDelimiter)))
           (Cat (Plus isSpace)
                (Cat (Cls (oneOf [91]%N))
                     (Cat (Star (noneOf [93]%N))
                          (Cat (Cls (oneOf [93]%N)) (Cls isSpace)))))).

Definition isCursorInListLine (line : jsstring) : bool :=
  test LIST_BULLET_REGEX line.

Definition isListLineTask (line : jsstring) : bool :=
  test LIST_TASK_REGEX line.

(** [bulletMatch.index + bulletMatch[0].length], or -1. *)
Definition getInsertPositionAfterBullet (line : jsstring) : Z :=
  match exec LIST_BULLET_REGEX line with
  | Some n => 0 + Z.of_nat n
  | None => -1
  end.

(** The resolver.  [now] is the value of [moment()] at the call. *)
Definition getInsertPositionInLineFromText (M : MomentLib) (now : Instant M)
           (lineText : jsstring) (addTimestampToListLines : bool)
           (timestampFormat : jsstring)
           (isCodeBlockStartEnd : jsstring -> bool) : Z :=
  if isListLineTask lineText then -1
  else if isCursorInListLine lineText && negb addTimestampToListLines then -1
  else
    let insertPosition :=
      if isCursorInListLine lineText
      then getInsertPositionAfterBullet lineText
      else 0 in
    if isCodeBlockStartEnd lineText then -1
    else
      let formattedTimestampLength := len (mformat M now timestampFormat) in
      match mparse M now
              (substring lineText insertPosition
                 (insertPosition + formattedTimestampLength))
              timestampFormat with
      | Valid => -1
      | Raised => -1
      | Invalid => insertPosition
      end.

End Utils.

(* ------------------------------------------------------------------ *)
(** ** main.ts *)

Module Main.

Record TiditPluginSettings : Type := {
  tiditOn : bool;
  timestampFormat : jsstring;
  addAfterDelay : jsnum;
  insertNewLineAfterTimestamp : bool;
  timezone : jsstring;
  useManualTimezoneOffset : bool;
  timezoneOffset : jsnum
}.

Definition DEFAULT_SETTINGS : TiditPluginSettings := {|
  tiditOn := true;
  timestampFormat := lit "YYYY-MM-DD HH:mm:ssZ";
  addAfterDelay := Num 60;
  insertNewLineAfterTimestamp := false;
  timezone := lit "local";
  useManualTimezoneOffset := false;
  timezoneOffset := Num 0
|}.

(** The fields of the plugin object that the logic reads and writes.  The
    last insertion instant is kept as its epoch milliseconds. *)
Record TiditPlugin : Type := {
  settings : TiditPluginSettings;
  lastTimeStampInsertTimestamp : Z;
  currFileName : jsstring
}.

Definition setAddAfterDelay (s : TiditPluginSettings) (v : jsnum)
  : TiditPluginSettings :=
  {| tiditOn := tiditOn s;
     timestampFormat := timestampFormat s;
     addAfterDelay := v;
     insertNewLineAfterTimestamp := insertNewLineAfterTimestamp s;
     timezone := timezone s;
     useManualTimezoneOffset := useManualTimezoneOffset s;
     timezoneOffset := timezoneOffset s |}.

Definition setTimezoneOffset (s : TiditPluginSettings) (v : jsnum)
  : TiditPluginSettings :=
  {| tiditOn := tiditOn s;
     timestampFormat := timestampFormat s;
     addAfterDelay := addAfterDelay s;
     insertNewLineAfterTimestamp := insertNewLineAfterTimestamp s;
     timezone := timezone s;
     useManualTimezoneOffset := useManualTimezoneOffset s;
     timezoneOffset := v |}.

Definition withSettings (p : TiditPlugin) (s : TiditPluginSettings)
  : TiditPlugin :=
  {| settings := s;
     lastTimeStampInsertTimestamp := lastTimeStampInsertTimestamp p;
     currFileName := currFileName p |}.

(** [this.lastTimeStampInsertTimestamp = moment(0)]. *)
Definition resetTimeStampInsertTimestamp (p : TiditPlugin) : TiditPlugin :=
  {| settings := settings p;
     lastTimeStampInsertTimestamp := 0;
     currFileName := currFileName p |}.

(** [saveSettings]: the host persists the settings, then the last
    insertion instant is reset. *)
Definition saveSettings (p : TiditPlugin) : TiditPlugin :=
  resetTimeStampInsertTimestamp p.

(** [x !== 0] on a number. *)
Definition isNonZero (x : jsnum) : bool :=
  match x with
  | Num z => negb (z =? 0)
  | NaN => true
  end.

(** The local [timestampMoment] of [getFormattedTimestamp] when it is
    formatted: the current moment in the selected zone, then under the
    manual offset if one is enabled and not zero. *)
Definition timestampMoment (M : MomentLib) (p : TiditPlugin)
           (now : Instant M) : Instant M :=
  let s := settings p in
  let timestampMoment :=
    if negb (eqs (timezone s) (lit "local"))
       && negb (eqs (timezone s) (lit "UTC"))
    then mtz M now (timezone s)
    else if eqs (timezone s) (lit "UTC") then mutc M now
    else now in
  if useManualTimezoneOffset s && isNonZero (timezoneOffset s)
  then mutcOffset M timestampMoment (timezoneOffset s)
  else timestampMoment.

Definition getFormattedTimestamp (M : MomentLib) (p : TiditPlugin)
           (now : Instant M) : jsstring :=
  let timestamp :=
    mformat M (timestampMoment M p now) (timestampFormat (settings p)) in
  if insertNewLineAfterTimestamp (settings p)
  then timestamp ++ [10%N]
  else timestamp ++ [32%N].

(** The effect of [editor.replaceRange(text, {line, ch: pos})] on the text
    of that line: [text] spliced in at column [pos].  The editor is the
    host's and not part of the sources; the splice is what its
    documentation gives for an empty range. *)
Definition insertTextAtLine (lineText : jsstring) (pos : Z)
           (timestamp : jsstring) : jsstring :=
  firstn (Z.to_nat pos) lineText ++ timestamp ++ skipn (Z.to_nat pos) lineText.

(** [/^\s*[-*+]\s/.test(line) || /^\s*\d+\.\s/.test(line)] *)
Definition isCursorInListLine (line : jsstring) : bool :=
  test (Cat (Star isSpace)
            (Cat (Cls (oneOf [45; 42; 43]%N)) (Cls isSpace))) line
  || test (Cat (Star isSpace)
               (Cat (Plus isDigit)
                    (Cat (Cls (oneOf [46]%N)) (Cls isSpace)))) line.

Definition isCodeBlockStartEnd (line : jsstring) : bool :=
  startsWith line (lit "`") || endsWith line (lit "```").

(** The resolver of the plugin class.  [lineText] is what the editor
    returns for the line above the cursor. *)
Definition getInsertPositionInLine (M : MomentLib) (p : TiditPlugin)
           (now : Instant M) (lineText : jsstring) : Z :=
  if isCursorInListLine lineText then -1
  else if isCodeBlockStartEnd lineText then -1
  else
    let timestampFormat := timestampFormat (settings p) in
    let formattedTimestampLength := len (mformat M now timestampFormat) in
    match mparse M now
            (substring (trim lineText) 0 formattedTimestampLength)
            timestampFormat with
    | Valid => -1
    | Raised => -1
    | Invalid => 0
    end.

(** [a.diff(b, "seconds")] on epoch milliseconds: the difference over
    1000, truncated toward zero. *)
Definition diffSeconds (a b : Z) : Z := Z.quot (a - b) 1000.

(** The throttling test of the key handler: true when the handler returns
    without inserting. *)
Definition tooSoon (p : TiditPlugin) (nowMillis : Z) : bool :=
  JS.lt (Num (diffSeconds nowMillis (lastTimeStampInsertTimestamp p)))
        (addAfterDelay (settings p)).

(** What the handler reads from the focused editor: the cursor line and the
    text of the line above it. *)
Record EditorView : Type := {
  cursorLine : Z;
  previousLineText : jsstring
}.

(** A call of [insertTextAtLine]. *)
Record Insertion : Type := {
  atLine : Z;
  atColumn : Z;
  inserted : jsstring
}.

(** The file check of the handler: when the focused file is not the one
    seen last, its name is recorded and the last insertion instant is
    reset. *)
Definition noteActiveFile (p : TiditPlugin) (name : jsstring) : TiditPlugin :=
  if negb (eqs (currFileName p) name)
  then resetTimeStampInsertTimestamp
         {| settings := settings p;
            lastTimeStampInsertTimestamp := lastTimeStampInsertTimestamp p;
            currFileName := name |}
  else p.

(** The [keyup] handler: the plugin after the event and the insertion it
    performed, if any. *)
Definition onKeyup (M : MomentLib) (p : TiditPlugin) (key : jsstring)
           (editor : option EditorView) (file : option jsstring)
           (now : Instant M) : TiditPlugin * option Insertion :=
  if negb (tiditOn (settings p)) then (p, None)
  else if negb (eqs key (lit "Enter")) then (p, None)
  else
    match editor with
    | None => (p, None)
    | Some ed =>
        match file with
        | None => (p, None)
        | Some name =>
            let p1 := noteActiveFile p name in
            if tooSoon p1 (mvalueOf M now) then (p1, None)
            else
              let pos := getInsertPositionInLine M p1 now
                           (previousLineText ed) in
              if pos =? -1 then (p1, None)
              else
                let timestamp := getFormattedTimestamp M p1 now in
                ({| settings := settings p1;
                    lastTimeStampInsertTimestamp := mvalueOf M now;
                    currFileName := currFileName p1 |},
                 Some {| atLine := Z.max 0 (cursorLine ed - 1);
                         atColumn := pos;
                         inserted := timestamp |})
        end
    end.

(** [onChange] of the "Add timestamp after delay" text field. *)
Definition addAfterDelay_onChange (p : TiditPlugin) (value : jsstring)
  : TiditPlugin :=
  let v := Math_max1 (Math_min (parseInt value) (Num 1234)) in
  saveSettings (withSettings p (setAddAfterDelay (settings p) v)).

(** [onChange] of the "Manual Timezone Offset" text field. *)
Definition timezoneOffset_onChange (p : TiditPlugin) (value : jsstring)
  : TiditPlugin :=
  let offset := parseInt value in
  if negb (isNaN offset)
  then saveSettings (withSettings p (setTimezoneOffset (settings p) offset))
  else p.

End Main.

(* ------------------------------------------------------------------ *)
(** ** A reference instance of the date library

    The numeric tokens [YYYY MM M DD D HH mm ss Z] of moment 2.29 with
    literal punctuation between them, enough to run the engine on the
    default pattern and on patterns of the same kind.  A pattern that
    contains any other letter, a bracket or a backslash is outside this
    instance ([tokenize] answers [None]); nothing is claimed for it.  No
    zone data is loaded, so [tz] leaves the moment as it is, which is what
    moment-timezone does for a zone it has no data for. *)

Module RefMoment.

(** A moment: an instant and the UTC offset it is displayed in. *)
Record moment : Type := {
  epochMillis : Z;
  offsetMinutes : Z
}.

Record Civil : Type := {
  year : Z; month : Z; day : Z;
  hour : Z; minute : Z; second : Z
}.

(** Proleptic Gregorian date of a day number counted from 1970-01-01. *)
Definition civilFromDays (days : Z) : Z * Z * Z :=
  let z := days + 719468 in
  let era := z / 146097 in
  let doe := z - era * 146097 in
  let yoe := (doe - doe / 1460 + doe / 36524 - doe / 146096) / 365 in
  let y := yoe + era * 400 in
  let doy := doe - (365 * yoe + yoe / 4 - yoe / 100) in
  let mp := (5 * doy + 2) / 153 in
  let d := doy - (153 * mp + 2) / 5 + 1 in
  let m := if mp <? 10 then mp + 3 else mp - 9 in
  (if m <=? 2 then y + 1 else y, m, d).

(** The wall-clock fields a moment displays. *)
Definition civil (m : moment) : Civil :=
  let secs := epochMillis m / 1000 + offsetMinutes m * 60 in
  let '(y, mo, d) := civilFromDays (secs / 86400) in
  let sod := secs mod 86400 in
  {| year := y; month := mo; day := d;
     hour := sod / 3600; minute := (sod mod 3600) / 60;
     second := sod mod 60 |}.

Inductive token : Type :=
| TYYYY | TMM | TM | TDD | TD | THH | Tmm | Tss | TZ
| TLit : N -> token.

(** Run-length encoding of a pattern. *)
Fixpoint runs (s : jsstring) : list (N * nat) :=
  match s with
  | [] => []
  | c :: s' =>
      match runs s' with
      | (d, n) :: t =>
          if (c =? d)%N then (c, S n) :: t else (c, 1%nat) :: (d, n) :: t
      | [] => [(c, 1%nat)]
      end
  end.

Definition isLetter (c : N) : bool :=
  ((65 <=? c) && (c <=? 90) || (97 <=? c) && (c <=? 122))%N.

(** Characters that are not read as themselves by the pattern scanner:
    letters outside the supported tokens, brackets, the backslash and the
    line terminators. *)
Definition isPlain (c : N) : bool :=
  negb (isLetter c)
  && negb (oneOf [91; 93; 92; 10; 13; 8232; 8233]%N c).

Definition tokenOfRun (r : N * nat) : option (list token) :=
  match r with
  | (89%N, 4%nat) => Some [TYYYY]
  | (77%N, 1%nat) => Some [TM]
  | (77%N, 2%nat) => Some [TMM]
  | (68%N, 1%nat) => Some [TD]
  | (68%N, 2%nat) => Some [TDD]
  | (72%N, 2%nat) => Some [THH]
  | (109%N, 2%nat) => Some [Tmm]
  | (115%N, 2%nat) => Some [Tss]
  | (90%N, 1%nat) => Some [TZ]
  | (c, n) => if isPlain c then Some (repeat (TLit c) n) else None
  end.

Fixpoint tokensOfRuns (rs : list (N * nat)) : option (list token) :=
  match rs with
  | [] => Some []
  | r :: rs' =>
      match tokenOfRun r, tokensOfRuns rs' with
      | Some a, Some b => Some (a ++ b)
      | _, _ => None
      end
  end.

Definition tokenize (pattern : jsstring) : option (list token) :=
  tokensOfRuns (runs pattern).

(** Decimal digits of a non-negative number. *)
Fixpoint decimalAux (fuel : nat) (n : Z) (acc : jsstring) : jsstring :=
  match fuel with
  | O => acc
  | S f =>
      let acc' := Z.to_N (48 + n mod 10) :: acc in
      if n / 10 =? 0 then acc' else decimalAux f (n / 10) acc'
  end.

Definition decimal (n : Z) : jsstring :=
  decimalAux (S (Z.to_nat (Z.log2 n))) n [].

(** [zeroFill(n, width)]. *)
Definition zeroFill (n : Z) (width : nat) : jsstring :=
  let ds := decimal (Z.abs n) in
  (if n <? 0 then [45%N] else [])
  ++ repeat 48%N (width - List.length ds)%nat ++ ds.

Definition formatToken (c : Civil) (offset : Z) (t : token) : jsstring :=
  match t with
  | TYYYY => zeroFill (year c) 4
  | TMM => zeroFill (month c) 2
  | TM => decimal (month c)
  | TDD => zeroFill (day c) 2
  | TD => decimal (day c)
  | THH => zeroFill (hour c) 2
  | Tmm => zeroFill (minute c) 2
  | Tss => zeroFill (second c) 2
  | TZ =>
      (if offset <? 0 then [45%N] else [43%N])
      ++ zeroFill (Z.abs offset / 60) 2 ++ [58%N]
      ++ zeroFill (Z.abs offset mod 60) 2
  | TLit ch => [ch]
  end.

Definition format (m : moment) (pattern : jsstring) : jsstring :=
  match tokenize pattern with
  | Some ts => List.concat (map (formatToken (civil m) (offsetMinutes m)) ts)
  | None => pattern
  end.

(** Fields collected by a parse. *)
Record Parsed : Type := {
  pYear : option Z; pMonth : option Z; pDay : option Z;
  pHour : option Z; pMinute : option Z; pSecond : option Z;
  pAny : bool
}.

Definition noFields : Parsed :=
  {| pYear := None; pMonth := None; pDay := None;
     pHour := None; pMinute := None; pSecond := None; pAny := false |}.

Definition digitVal (c : N) : Z := Z.of_N c - 48.

(** Exactly [n] digits at the head of the input: their value and the
    rest. *)
Fixpoint takeDigits (n : nat) (acc : Z) (s : jsstring)
  : option (Z * jsstring) :=
  match n with
  | O => Some (acc, s)
  | S n' =>
      match s with
      | c :: s' =>
          if isDigit c then takeDigits n' (acc * 10 + digitVal c) s'
          else None
      | [] => None
      end
  end.

(** One or two digits, two when there are two ([\d\d?]). *)
Definition take1to2 (s : jsstring) : option (Z * jsstring) :=
  match takeDigits 2 0 s with
  | Some r => Some r
  | None => takeDigits 1 0 s
  end.

(** [Z|[+-]\d\d(?::?\d\d)?], case-insensitive: the rest of the input after
    the offset. *)
Definition takeOffset (s : jsstring) : option jsstring :=
  match s with
  | c :: s' =>
      if oneOf [90; 122]%N c then Some s'
      else if oneOf [43; 45]%N c then
        match takeDigits 2 0 s' with
        | Some (_, s2) =>
            let afterColon :=
              match s2 with
              | 58%N :: s3 => takeDigits 2 0 s3
              | _ => None
              end in
            match afterColon with
            | Some (_, s4) => Some s4
            | None =>
                match takeDigits 2 0 s2 with
                | Some (_, s4) => Some s4
                | None => Some s2
                end
            end
        | None => None
        end
      else None
  | [] => None
  end.

Definition setField (t : token) (v : Z) (p : Parsed) : Parsed :=
  match t with
  | TYYYY =>
      {| pYear := Some v; pMonth := pMonth p; pDay := pDay p;
         pHour := pHour p; pMinute := pMinute p; pSecond := pSecond p;
         pAny := true |}
  | TMM | TM =>
      {| pYear := pYear p; pMonth := Some v; pDay := pDay p;
         pHour := pHour p; pMinute := pMinute p; pSecond := pSecond p;
         pAny := true |}
  | TDD | TD =>
      {| pYear := pYear p; pMonth := pMonth p; pDay := Some v;
         pHour := pHour p; pMinute := pMinute p; pSecond := pSecond p;
         pAny := true |}
  | THH =>
      {| pYear := pYear p; pMonth := pMonth p; pDay := pDay p;
         pHour := Some v; pMinute := pMinute p; pSecond := pSecond p;
         pAny := true |}
  | Tmm =>
      {| pYear := pYear p; pMonth := pMonth p; pDay := pDay p;
         pHour := pHour p; pMinute := Some v; pSecond := pSecond p;
         pAny := true |}
  | Tss =>
      {| pYear := pYear p; pMonth := pMonth p; pDay := pDay p;
         pHour := pHour p; pMinute := pMinute p; pSecond := Some v;
         pAny := true |}
  | TZ | TLit _ =>
      {| pYear := pYear p; pMonth := pMonth p; pDay := pDay p;
         pHour := pHour p; pMinute := pMinute p; pSecond := pSecond p;
         pAny := match t with TZ => true | _ => pAny p end |}
  end.

(** The strict scan: every token must match where the previous one
    stopped.  (The library searches each token's expression in the rest of
    the input and counts what it skips as left over; in strict mode left
    over input invalidates the result, so only a match in place counts.) *)
Fixpoint scan (ts : list token) (s : jsstring) (p : Parsed)
  : option (Parsed * jsstring) :=
  match ts with
  | [] => Some (p, s)
  | t :: ts' =>
      let step :=
        match t with
        | TYYYY => option_map (fun r => (setField t (fst r) p, snd r))
                              (takeDigits 4 0 s)
        | TMM | TDD | THH | Tmm | Tss =>
            option_map (fun r => (setField t (fst r) p, snd r))
                       (takeDigits 2 0 s)
        | TM | TD => option_map (fun r => (setField t (fst r) p, snd r))
                                (take1to2 s)
        | TZ => option_map (fun r => (setField t 0 p, r)) (takeOffset s)
        | TLit ch =>
            match s with
            | c :: s' => if (c =? ch)%N then Some (p, s') else None
            | [] => None
            end
        end in
      match step with
      | Some (p', s') => scan ts' s' p'
      | None => None
      end
  end.

Definition isLeapYear (y : Z) : bool :=
  ((y mod 4 =? 0) && negb (y mod 100 =? 0)) || (y mod 400 =? 0).

Definition daysInMonth (y m : Z) : Z :=
  if m =? 2 then (if isLeapYear y then 29 else 28)
  else if (m =? 4) || (m =? 6) || (m =? 9) || (m =? 11) then 30
  else 31.

(** Missing date fields: those before the first one given default to
    today's, those after it to January and to the 1st. *)
Definition dateFields (today : Civil) (p : Parsed) : Z * Z * Z :=
  match pYear p, pMonth p, pDay p with
  | Some y, mo, d =>
      (y, match mo with Some v => v | None => 1 end,
          match d with Some v => v | None => 1 end)
  | None, Some mo, d =>
      (year today, mo, match d with Some v => v | None => 1 end)
  | None, None, Some d => (year today, month today, d)
  | None, None, None => (year today, month today, day today)
  end.

(** The overflow check of the library on the collected fields. *)
Definition noOverflow (today : Civil) (p : Parsed) : bool :=
  let '(y, mo, d) := dateFields today p in
  let h := match pHour p with Some v => v | None => 0 end in
  let mi := match pMinute p with Some v => v | None => 0 end in
  let s := match pSecond p with Some v => v | None => 0 end in
  (1 <=? mo) && (mo <=? 12)
  && (1 <=? d) && (d <=? daysInMonth y mo)
  && (h <=? 24) && negb ((h =? 24) && (negb (mi =? 0) || negb (s =? 0)))
  && (mi <=? 59) && (s <=? 59).

Definition parseStrict (now : moment) (text pattern : jsstring)
  : ParseOutcome :=
  match tokenize pattern with
  | None => Invalid
  | Some ts =>
      match scan ts text noFields with
      | Some (p, []) =>
          if pAny p && noOverflow (civil now) p then Valid else Invalid
      | _ => Invalid
      end
  end.

Definition lib : MomentLib := {|
  Instant := moment;
  mformat := format;
  mparse := parseStrict;
  mtz := fun m _ => m;
  mutc := fun m => {| epochMillis := epochMillis m; offsetMinutes := 0 |};
  mutcOffset := fun m o =>
    match o with
    | Num z =>
        {| epochMillis := epochMillis m;
           offsetMinutes := if Z.abs z <? 16 then z * 60 else z |}
    | NaN => m
    end;
  mvalueOf := epochMillis
|}.

End RefMoment.

(* ------------------------------------------------------------------ *)
(** ** The words of the specification about list lines *)

Module Shape.

Fixpoint dropWhile (p : N -> bool) (s : jsstring) : jsstring :=
  match s with
  | c :: s' => if p c then dropWhile p s' else s
  | [] => []
  end.

Fixpoint takeWhile (p : N -> bool) (s : jsstring) : jsstring :=
  match s with
  | c :: s' => if p c then c :: takeWhile p s' else []
  | [] => []
  end.

(** A list marker: one of [-], [*], [+], or digits closed by [.] or [)]. *)
Definition isMarker (m : jsstring) : bool :=
  match m with
  | [c] => Utils.unorderedMarker c
  | _ => false
  end
  ||
  match rev m with
  | d :: ((_ :: _) as ds) => Utils.orderedDelimiter d && forallb isDigit ds
  | _ => false
  end.

(** The text does not begin with white space. *)
Definition noLeadingSpace (s : jsstring) : bool :=
  match s with
  | c :: _ => negb (isSpace c)
  | [] => true
  end.

(** What is left of a line after its marker, read from the first unit that
    is not indentation. *)
Definition afterMarker (s : jsstring) : option jsstring :=
  match s with
  | c :: s' =>
      if Utils.unorderedMarker c then Some s'
      else if isDigit c then
        match dropWhile isDigit s' with
        | d :: s'' => if Utils.orderedDelimiter d then Some s'' else None
        | [] => None
        end
      else None
  | [] => None
  end.

(** What follows the bullet of a list line: the indentation, the marker
    and all the white space after it (at least one unit) are dropped. *)
Definition afterBullet (line : jsstring) : option jsstring :=
  match afterMarker (dropWhile isSpace line) with
  | Some (c :: s') => if isSpace c then Some (dropWhile isSpace s') else None
  | _ => None
  end.

(** A line laid out as indentation, marker, gap and the rest. *)
Definition BulletLayout (line indent marker gap rest : jsstring) : Prop :=
  line = indent ++ marker ++ gap ++ rest
  /\ forallb isSpace indent = true
  /\ isMarker marker = true
  /\ gap <> [] /\ forallb isSpace gap = true
  /\ noLeadingSpace rest = true.

(** The candidate offset of the resolver (its [insertPosition] when the
    duplicate check runs): 0 for a plain line, the position after the
    bullet for a list line. *)
Definition candidateOffset (line : jsstring) : Z :=
  if Utils.isCursorInListLine line
  then Utils.getInsertPositionAfterBullet line
  else 0.

(** The duplicate check: the strict parse of the text that starts at the
    candidate offset and is as long as a timestamp formatted now. *)
Definition duplicateCheck (M : MomentLib) (now : Instant M)
           (line pattern : jsstring) : ParseOutcome :=
  let n := len (mformat M now pattern) in
  mparse M now
    (substring line (candidateOffset line) (candidateOffset line + n))
    pattern.

(** A line on which none of the first three steps of the resolver fires:
    not a task line, not a list line while list lines are excluded, not a
    code-fence boundary. *)
Definition reachesDuplicateCheck (line : jsstring) (appendToListLines : bool)
           (isCodeBlockStartEnd : jsstring -> bool) : bool :=
  negb (Utils.isListLineTask line)
  && negb (Utils.isCursorInListLine line && negb appendToListLines)
  && negb (isCodeBlockStartEnd line).

End Shape.

(* ------------------------------------------------------------------ *)
(** ** Inputs of the worked examples *)

Module Samples.

(** 2026-11-02 13:00:00 at UTC+01:00. *)
Definition noon : RefMoment.moment :=
  {| RefMoment.epochMillis := 1793620800000;
     RefMoment.offsetMinutes := 60 |}.

Definition defaultFormat : jsstring :=
  Main.timestampFormat Main.DEFAULT_SETTINGS.

(** Day, month and year in the order and punctuation of Central Europe. *)
Definition dottedFormat : jsstring := lit "D. M. YYYY".

Definition plugin (pattern : jsstring) : Main.TiditPlugin :=
  {| Main.settings :=
       {| Main.tiditOn := true;
          Main.timestampFormat := pattern;
          Main.addAfterDelay := Num 60;
          Main.insertNewLineAfterTimestamp := false;
          Main.timezone := lit "local";
          Main.useManualTimezoneOffset := false;
          Main.timezoneOffset := Num 0 |};
     Main.lastTimeStampInsertTimestamp := 0;
     Main.currFileName := lit "notes.md" |}.

(** 2026-11-09 23:30 UTC, shown at UTC+01:00 where it is already the
    10th. *)
Definition lateEvening : RefMoment.moment :=
  {| RefMoment.epochMillis := 1794267000000;
     RefMoment.offsetMinutes := 60 |}.

(** The sample plugin with timestamps in UTC. *)
Definition pluginUTC (pattern : jsstring) : Main.TiditPlugin :=
  {| Main.settings :=
       {| Main.tiditOn := true;
          Main.timestampFormat := pattern;
          Main.addAfterDelay := Num 60;
          Main.insertNewLineAfterTimestamp := false;
          Main.timezone := lit "UTC";
          Main.useManualTimezoneOffset := false;
          Main.timezoneOffset := Num 0 |};
     Main.lastTimeStampInsertTimestamp := 0;
     Main.currFileName := lit "notes.md" |}.

(** One run of the resolver, the insertion it asks for, and a second run
    on the line that results. *)
Definition secondRun (p : Main.TiditPlugin) (now : RefMoment.moment)
           (line : jsstring) (flag : bool) : Z * jsstring * Z :=
  let pattern := Main.timestampFormat (Main.settings p) in
  let offset :=
    Utils.getInsertPositionInLineFromText RefMoment.lib now line flag
      pattern Main.isCodeBlockStartEnd in
  let line' :=
    Main.insertTextAtLine line offset
      (Main.getFormattedTimestamp RefMoment.lib p now) in
  (offset, line',
   Utils.getInsertPositionInLineFromText RefMoment.lib now line' flag
     pattern Main.isCodeBlockStartEnd).

End Samples.

(* ------------------------------------------------------------------ *)
(** ** Numbers as text *)

Module JSNumber.

(** The ASCII digits of a decimal numeral. *)
Fixpoint unitsOfUint (u : Decimal.uint) : jsstring :=
  match u with
  | Decimal.Nil => []
  | Decimal.D0 u' => 48%N :: unitsOfUint u'
  | Decimal.D1 u' => 49%N :: unitsOfUint u'
  | Decimal.D2 u' => 50%N :: unitsOfUint u'
  | Decimal.D3 u' => 51%N :: unitsOfUint u'
  | Decimal.D4 u' => 52%N :: unitsOfUint u'
  | Decimal.D5 u' => 53%N :: unitsOfUint u'
  | Decimal.D6 u' => 54%N :: unitsOfUint u'
  | Decimal.D7 u' => 55%N :: unitsOfUint u'
  | Decimal.D8 u' => 56%N :: unitsOfUint u'
  | Decimal.D9 u' => 57%N :: unitsOfUint u'
  end.

(** [x.toString()] on [NaN] and on an integer below 10^21 in magnitude
    (from there on the method switches to exponent notation): the sign
    if negative, then the decimal digits. *)
Definition toString (x : jsnum) : jsstring :=
  match x with
  | NaN => lit "NaN"
  | Num z =>
      (if z <? 0 then [45%N] else []) ++ unitsOfUint (N.to_uint (Z.abs_N z))
  end.

End JSNumber.

(* ------------------------------------------------------------------ *)
(** ** main.ts: the commands and the other settings fields *)

Module Plugin.

Import Main.

Definition setTiditOn (s : TiditPluginSettings) (v : bool)
  : TiditPluginSettings :=
  {| tiditOn := v;
     timestampFormat := timestampFormat s;
     addAfterDelay := addAfterDelay s;
     insertNewLineAfterTimestamp := insertNewLineAfterTimestamp s;
     timezone := timezone s;
     useManualTimezoneOffset := useManualTimezoneOffset s;
     timezoneOffset := timezoneOffset s |}.

Definition setTimestampFormat (s : TiditPluginSettings) (v : jsstring)
  : TiditPluginSettings :=
  {| tiditOn := tiditOn s;
     timestampFormat := v;
     addAfterDelay := addAfterDelay s;
     insertNewLineAfterTimestamp := insertNewLineAfterTimestamp s;
     timezone := timezone s;
     useManualTimezoneOffset := useManualTimezoneOffset s;
     timezoneOffset := timezoneOffset s |}.

Definition setUseManualTimezoneOffset (s : TiditPluginSettings) (v : bool)
  : TiditPluginSettings :=
  {| tiditOn := tiditOn s;
     timestampFormat := timestampFormat s;
     addAfterDelay := addAfterDelay s;
     insertNewLineAfterTimestamp := insertNewLineAfterTimestamp s;
     timezone := timezone s;
     useManualTimezoneOffset := v;
     timezoneOffset := timezoneOffset s |}.

(** [onChange] of the "Use timestamp format" field: a blank value is
    replaced by the default pattern, then the value is stored and the
    settings saved.  (The example line under the field is the host's.) *)
Definition timestampFormat_onChange (p : TiditPlugin) (value : jsstring)
  : TiditPlugin :=
  let value :=
    if len (trim value) =? 0
    then timestampFormat DEFAULT_SETTINGS
    else value in
  saveSettings (withSettings p (setTimestampFormat (settings p) value)).

(** [onChange] of the "Use Manual Timezone Offset" toggle. *)
Definition useManualTimezoneOffset_onChange (p : TiditPlugin) (value : bool)
  : TiditPlugin :=
  saveSettings (withSettings p (setUseManualTimezoneOffset (settings p) value)).

(** The text the delay field and the offset field are opened with:
    [setValue(this.plugin.settings.addAfterDelay.toString())] and the
    same for [timezoneOffset]. *)
Definition addAfterDelay_text (p : TiditPlugin) : jsstring :=
  JSNumber.toString (addAfterDelay (settings p)).

Definition timezoneOffset_text (p : TiditPlugin) : jsstring :=
  JSNumber.toString (timezoneOffset (settings p)).

(** The "Insert timestamp at position" command on the cursor's line: the
    line after [insertTextAtLine] at the cursor column, and the column
    handed to [setCursor]. *)
Definition insertTimestampCommand (M : MomentLib) (p : TiditPlugin)
           (now : Instant M) (lineText : jsstring) (cursorCh : Z)
  : jsstring * Z :=
  let timestamp := getFormattedTimestamp M p now in
  (insertTextAtLine lineText cursorCh timestamp, len timestamp + cursorCh).

End Plugin.

(* ------------------------------------------------------------------ *)
(** ** The layout of task lines and of the plugin's own list lines *)

Module Layout.

(** A task line laid out: indentation, marker, gap, an opening bracket,
    a body without closing bracket, the closing bracket, and a rest that
    starts with white space. *)
Definition TaskLayout (line indent marker gap body rest : jsstring) : Prop :=
  line = indent ++ marker ++ gap ++ [91%N] ++ body ++ [93%N] ++ rest
  /\ forallb isSpace indent = true
  /\ Shape.isMarker marker = true
  /\ gap <> [] /\ forallb isSpace gap = true
  /\ forallb (noneOf [93%N]) body = true
  /\ (exists c r, rest = c :: r /\ isSpace c = true).

(** The checkbox test on what follows the bullet. *)
Definition startsWithCheckbox (s : jsstring) : bool :=
  match s with
  | c :: s1 =>
      (c =? 91)%N
      && match Shape.dropWhile (noneOf [93%N]) s1 with
         | _ :: e :: _ => isSpace e
         | _ => false
         end
  | [] => false
  end.

(** The text begins with white space. *)
Definition headIsSpace (s : jsstring) : bool :=
  match s with
  | e :: _ => isSpace e
  | [] => false
  end.

(** The list test of the plugin class, read off the line: after the
    indentation comes [-], [*] or [+] and white space, or digits, a full
    stop and white space. *)
Definition classListLine (line : jsstring) : bool :=
  match Shape.dropWhile isSpace line with
  | c :: s' =>
      (Utils.unorderedMarker c && headIsSpace s')
      || (isDigit c
          && match Shape.dropWhile isDigit s' with
             | d :: s'' => (d =? 46)%N && headIsSpace s''
             | [] => false
             end)
  | [] => false
  end.

(** A marker the list test of the plugin class accepts: [-], [*], [+],
    or digits closed by a full stop. *)
Definition isClassMarker (m : jsstring) : bool :=
  Shape.isMarker m && forallb (fun c => negb (c =? 41)%N) m.

End Layout.

(* ------------------------------------------------------------------ *)
(** ** The ways through the key handler *)

Module Handler.

(** The four ways through [onKeyup]: the event is ignored, the rate
    guard stops it, the resolver skips the line, or a timestamp is
    inserted. *)
Inductive KeyupPath (M : MomentLib) (p : Main.TiditPlugin) (key : jsstring)
          (editor : option Main.EditorView) (file : option jsstring)
          (now : Instant M) : Main.TiditPlugin * option Main.Insertion -> Prop :=
| PathIgnored :
    Main.tiditOn (Main.settings p) = false \/ key <> lit "Enter"
    \/ editor = None \/ file = None ->
    KeyupPath M p key editor file now (p, None)
| PathThrottled (ed : Main.EditorView) (name : jsstring) :
    Main.tiditOn (Main.settings p) = true -> key = lit "Enter" ->
    editor = Some ed -> file = Some name ->
    Main.tooSoon (Main.noteActiveFile p name) (mvalueOf M now) = true ->
    KeyupPath M p key editor file now (Main.noteActiveFile p name, None)
| PathSkipped (ed : Main.EditorView) (name : jsstring) :
    Main.tiditOn (Main.settings p) = true -> key = lit "Enter" ->
    editor = Some ed -> file = Some name ->
    Main.tooSoon (Main.noteActiveFile p name) (mvalueOf M now) = false ->
    Main.getInsertPositionInLine M (Main.noteActiveFile p name) now
      (Main.previousLineText ed) = -1 ->
    KeyupPath M p key editor file now (Main.noteActiveFile p name, None)
| PathInserted (ed : Main.EditorView) (name : jsstring) :
    Main.tiditOn (Main.settings p) = true -> key = lit "Enter" ->
    editor = Some ed -> file = Some name ->
    Main.tooSoon (Main.noteActiveFile p name) (mvalueOf M now) = false ->
    Main.getInsertPositionInLine M (Main.noteActiveFile p name) now
      (Main.previousLineText ed) = 0 ->
    KeyupPath M p key editor file now
      ({| Main.settings := Main.settings p;
          Main.lastTimeStampInsertTimestamp := mvalueOf M now;
          Main.currFileName := name |},
       Some {| Main.atLine := Z.max 0 (Main.cursorLine ed - 1);
               Main.atColumn := 0;
               Main.inserted :=
                 Main.getFormattedTimestamp M (Main.noteActiveFile p name)
                   now |}).

End Handler.

(* ------------------------------------------------------------------ *)
(** * Properties *)

(** ** Lists of code units *)

Section ListFacts.
Import Shape.
Variable p : N -> bool.

Lemma takeWhile_dropWhile (s : jsstring) :
  takeWhile p s ++ dropWhile p s = s.
Proof.
  induction s as [|c s IH]; simpl; [reflexivity|].
  destruct (p c); simpl; [now rewrite IH | reflexivity].
Qed.

Lemma takeWhile_all (s : jsstring) : forallb p (takeWhile p s) = true.
Proof.
  induction s as [|c s IH]; simpl; [reflexivity|].
  destruct (p c) eqn:E; simpl; [now rewrite E | reflexivity].
Qed.

Lemma dropWhile_head (s : jsstring) (c : N) (r : jsstring) :
  dropWhile p s = c :: r -> p c = false.
Proof.
  induction s as [|d s IH]; simpl; [discriminate|].
  destruct (p d) eqn:E; [exact IH|].
  intros H; injection H as -> _; exact E.
Qed.

Lemma dropWhile_app_stop (pre rest : jsstring) :
  forallb p pre = true ->
  match rest with c :: _ => p c = false | [] => True end ->
  dropWhile p (pre ++ rest) = rest.
Proof.
  intros Hpre Hrest.
  induction pre as [|d pre IH]; simpl in *.
  - destruct rest as [|c r]; simpl; [reflexivity | now rewrite Hrest].
  - apply andb_true_iff in Hpre as [Hd Hpre].
    rewrite Hd. now apply IH.
Qed.

Lemma dropWhile_length (s : jsstring) :
  (List.length (dropWhile p s) <= List.length s)%nat.
Proof.
  induction s as [|c s IH]; simpl; [lia|].
  destruct (p c); simpl; lia.
Qed.
End ListFacts.

Lemma startsWith_iff (s q : jsstring) :
  startsWith s q = true <-> exists r, s = q ++ r.
Proof.
  revert s; induction q as [|y q IH]; intros s; simpl.
  - split; [intros _; now exists s | reflexivity].
  - destruct s as [|x s].
    + split; [discriminate | intros [r H]; discriminate].
    + rewrite andb_true_iff, N.eqb_eq, IH. split.
      * intros [-> [r ->]]. now exists r.
      * intros [r H]. injection H as -> ->. split; [reflexivity | now exists r].
Qed.

Lemma endsWith_iff (s q : jsstring) :
  endsWith s q = true <-> exists r, s = r ++ q.
Proof.
  unfold endsWith. rewrite startsWith_iff. split.
  - intros [r H]. exists (rev r).
    rewrite <- (rev_involutive s), H, rev_app_distr, rev_involutive.
    reflexivity.
  - intros [r ->]. exists (rev r). apply rev_app_distr.
Qed.

(** [substring] cuts the middle part out of a three-part string when it is
    given the bounds of that part. *)
Lemma substring_middle (a b c : jsstring) :
  substring (a ++ b ++ c) (len a) (len a + len b) = b.
Proof.
  unfold substring, clampIndex, len.
  rewrite !length_app.
  replace (Z.to_nat (Z.min (Z.max (Z.of_nat (List.length a)) 0) _))
    with (List.length a) by lia.
  replace (Z.to_nat
             (Z.min (Z.max (Z.of_nat (List.length a)
                            + Z.of_nat (List.length b)) 0) _))
    with (List.length a + List.length b)%nat by lia.
  rewrite Nat.min_l, Nat.max_r by lia.
  rewrite skipn_app, skipn_all, Nat.sub_diag; simpl.
  replace (List.length a + List.length b - List.length a)%nat
    with (List.length b) by lia.
  rewrite firstn_app, firstn_all, Nat.sub_diag; simpl.
  apply app_nil_r.
Qed.

(** ** The matcher *)

Section MatcherFacts.
Import Shape.
Variable A : Type.
Implicit Types (k : jsstring -> option A) (s : jsstring).

(** A greedy repetition never gives a unit back when the rest of the
    pattern cannot start with a unit of the repeated class. *)
Lemma star_commit (p : N -> bool) k s :
  (forall c s', p c = true -> k (c :: s') = None) ->
  star p s k = k (dropWhile p s).
Proof.
  intros Hk. induction s as [|c s IH]; simpl; [reflexivity|].
  destruct (p c) eqn:E; [|reflexivity].
  rewrite IH. destruct (k (dropWhile p s)); [reflexivity|].
  now apply Hk.
Qed.

(** Nor when the rest of the pattern always succeeds. *)
Lemma star_total (p : N -> bool) k s :
  (forall s', k s' <> None) ->
  star p s k = k (dropWhile p s).
Proof.
  intros Hk. induction s as [|c s IH]; simpl; [reflexivity|].
  destruct (p c) eqn:E; [|reflexivity].
  rewrite IH. destruct (k (dropWhile p s)) eqn:K; [reflexivity|].
  now apply Hk in K.
Qed.

Lemma star_reaches (p : N -> bool) k s (x : A) :
  star p s k = Some x ->
  exists s', k s' = Some x /\ (List.length s' <= List.length s)%nat.
Proof.
  induction s as [|c s IH]; simpl.
  - intros H. exists []. auto.
  - destruct (p c).
    + destruct (star p s k) eqn:E.
      * intros H; injection H as ->.
        destruct (IH eq_refl) as [s' [H1 H2]]. exists s'. split; [auto|lia].
      * intros H. exists (c :: s). auto.
    + intros H. exists (c :: s). auto.
Qed.

(** A successful match ends by calling its continuation on what it left
    of the input. *)
Lemma rmatch_reaches (r : regex) : forall k s (x : A),
  rmatch r s k = Some x ->
  exists s', k s' = Some x /\ (List.length s' <= List.length s)%nat.
Proof.
  induction r as [p|p|p|a IHa b IHb|a IHa b IHb]; intros k s x; simpl.
  - destruct s as [|c s]; [discriminate|].
    destruct (p c); [|discriminate].
    intros H. exists s. simpl. split; [auto|lia].
  - apply star_reaches.
  - destruct s as [|c s]; [discriminate|].
    destruct (p c); [|discriminate].
    intros H. apply star_reaches in H as [s' [H1 H2]].
    exists s'. simpl. split; [auto|lia].
  - intros H. apply IHa in H as [s1 [H1 L1]].
    apply IHb in H1 as [s2 [H2 L2]].
    exists s2. split; [auto|lia].
  - destruct (rmatch a s k) eqn:E.
    + intros H; injection H as ->. now apply IHa in E.
    + apply IHb.
Qed.
End MatcherFacts.

Section MatcherMono.
Import Shape.
Variables A B : Type.

Lemma star_mono (p : N -> bool) (k1 : jsstring -> option A)
      (k2 : jsstring -> option B) (s : jsstring) :
  (forall s', k1 s' <> None -> k2 s' <> None) ->
  star p s k1 <> None -> star p s k2 <> None.
Proof.
  intros Hk. induction s as [|c s IH]; simpl; [apply Hk|].
  destruct (p c); [|apply Hk].
  destruct (star p s k1) eqn:E1.
  - intros _. destruct (star p s k2) eqn:E2; [discriminate|].
    exfalso. apply IH; [discriminate | reflexivity].
  - intros H. destruct (star p s k2); [discriminate | now apply Hk].
Qed.

(** Success is monotone in the continuation: a pattern that succeeds
    before a demanding continuation succeeds before a laxer one. *)
Lemma rmatch_mono (r : regex) :
  forall (k1 : jsstring -> option A) (k2 : jsstring -> option B) s,
    (forall s', k1 s' <> None -> k2 s' <> None) ->
    rmatch r s k1 <> None -> rmatch r s k2 <> None.
Proof.
  induction r as [p|p|p|a IHa b IHb|a IHa b IHb]; intros k1 k2 s Hk; simpl.
  - destruct s as [|c s]; [auto|]. destruct (p c); auto.
  - now apply star_mono.
  - destruct s as [|c s]; [auto|]. destruct (p c); [|auto].
    now apply star_mono.
  - apply IHa. intros s'. now apply IHb.
  - destruct (rmatch a s k1) eqn:E1.
    + intros _. destruct (rmatch a s k2) eqn:E2; [discriminate|].
      exfalso. apply (IHa k1 k2 s Hk); [rewrite E1; discriminate | exact E2].
    + intros H. destruct (rmatch a s k2); [discriminate|].
      now apply (IHb k1 k2 s Hk).
Qed.
End MatcherMono.

(** ** The bullet pattern, read off the line *)

Ltac oneOf_cases H :=
  unfold Utils.unorderedMarker, Utils.orderedDelimiter, oneOf in H;
  simpl in H;
  repeat (apply orb_true_iff in H; destruct H as [H|H]);
  try discriminate; apply N.eqb_eq in H; subst.

Lemma marker_not_space (c : N) :
  Utils.unorderedMarker c = true -> isSpace c = false.
Proof. intros H; oneOf_cases H; reflexivity. Qed.

Lemma marker_not_digit (c : N) :
  Utils.unorderedMarker c = true -> isDigit c = false.
Proof. intros H; oneOf_cases H; reflexivity. Qed.

Lemma delimiter_not_digit (c : N) :
  Utils.orderedDelimiter c = true -> isDigit c = false.
Proof. intros H; oneOf_cases H; reflexivity. Qed.

Lemma digit_not_space (c : N) : isDigit c = true -> isSpace c = false.
Proof.
  unfold isDigit, isSpace. intros H.
  apply andb_true_iff in H as [H1 H2].
  apply N.leb_le in H1. apply N.leb_le in H2.
  repeat match goal with
         | |- context [N.eqb c ?n] =>
             replace (N.eqb c n) with false
               by (symmetry; apply N.eqb_neq; lia)
         | |- context [N.leb c 13] =>
             replace (N.leb c 13) with false
               by (symmetry; apply N.leb_gt; lia)
         | |- context [N.leb 8192 c] =>
             replace (N.leb 8192 c) with false
               by (symmetry; apply N.leb_gt; lia)
         end.
  now rewrite andb_false_r.
Qed.

Lemma space_not_marker (c : N) :
  isSpace c = true -> Utils.unorderedMarker c = false.
Proof.
  intros H. destruct (Utils.unorderedMarker c) eqn:E; [|reflexivity].
  apply marker_not_space in E. congruence.
Qed.

Lemma space_not_digit (c : N) : isSpace c = true -> isDigit c = false.
Proof.
  intros H. destruct (isDigit c) eqn:E; [|reflexivity].
  apply digit_not_space in E. congruence.
Qed.

Lemma digit_not_delimiter (c : N) :
  isDigit c = true -> Utils.orderedDelimiter c = false.
Proof.
  intros H. destruct (Utils.orderedDelimiter c) eqn:E; [|reflexivity].
  apply delimiter_not_digit in E. congruence.
Qed.

(** The pattern [LIST_BULLET_REGEX] matches exactly the lines that have a
    bullet in the sense of [Shape.afterBullet], and the match ends where
    the rest of the line begins. *)
Lemma exec_bullet (line : jsstring) :
  exec Utils.LIST_BULLET_REGEX line =
  option_map (fun rest => (List.length line - List.length rest)%nat)
             (Shape.afterBullet line).
Proof.
  unfold exec, Utils.LIST_BULLET_REGEX, Shape.afterBullet. cbn [rmatch].
  set (k0 := fun rest : jsstring =>
               Some (List.length line - List.length rest)%nat).
  rewrite star_commit.
  2:{ intros c s' Hc. rewrite (space_not_marker _ Hc), (space_not_digit _ Hc).
      reflexivity. }
  generalize (Shape.dropWhile isSpace line) as s1. intros s1.
  assert (Hgap : forall s2 : jsstring,
             match s2 with
             | c :: s' => if isSpace c then star isSpace s' k0 else None
             | [] => None
             end =
             match s2 with
             | c :: s' =>
                 if isSpace c then k0 (Shape.dropWhile isSpace s') else None
             | [] => None
             end).
  { intros [|c s']; [reflexivity|]. destruct (isSpace c); [|reflexivity].
    simpl. apply star_total. intros s''. discriminate. }
  destruct s1 as [|c s]; [reflexivity|]. unfold Shape.afterMarker.
  destruct (Utils.unorderedMarker c) eqn:Em.
  - rewrite (marker_not_digit _ Em). rewrite Hgap.
    destruct s as [|d s']; [reflexivity|].
    destruct (isSpace d); reflexivity.
  - destruct (isDigit c) eqn:Ed; [|reflexivity].
    rewrite star_commit.
    2:{ intros d s' Hd. now rewrite (digit_not_delimiter _ Hd). }
    destruct (Shape.dropWhile isDigit s) as [|d s3]; [reflexivity|].
    destruct (Utils.orderedDelimiter d); [|reflexivity].
    rewrite Hgap. destruct s3 as [|e s4]; [reflexivity|].
    destruct (isSpace e); reflexivity.
Qed.

Lemma forallb_rev (p : N -> bool) (l : jsstring) :
  forallb p (rev l) = forallb p l.
Proof.
  induction l as [|c l IH]; simpl; [reflexivity|].
  rewrite forallb_app, IH; simpl. rewrite andb_true_r. apply andb_comm.
Qed.

(** The two kinds of marker. *)
Lemma isMarker_cases (m : jsstring) :
  Shape.isMarker m = true <->
  (exists c, m = [c] /\ Utils.unorderedMarker c = true)
  \/ (exists c ds d, m = (c :: ds) ++ [d]
                     /\ forallb isDigit (c :: ds) = true
                     /\ Utils.orderedDelimiter d = true).
Proof.
  unfold Shape.isMarker. rewrite orb_true_iff. split.
  - intros [H|H].
    + destruct m as [|c [|? ?]]; try discriminate. left. now exists c.
    + right. destruct (rev m) as [|d [|e ds]] eqn:E; try discriminate.
      apply andb_true_iff in H as [Hd Hds].
      assert (Hm : m = rev (e :: ds) ++ [d]).
      { rewrite <- (rev_involutive m), E. reflexivity. }
      rewrite <- forallb_rev in Hds.
      destruct (rev (e :: ds)) as [|c ds'] eqn:R.
      { apply (f_equal (@List.length N)) in R.
        rewrite length_rev in R. discriminate. }
      exists c, ds', d. auto.
  - intros [[c [-> H]]|[c [ds [d [-> [Hds Hd]]]]]].
    + now left.
    + right. rewrite rev_app_distr.
      change (rev [d] ++ rev (c :: ds)) with (d :: rev (c :: ds)).
      rewrite <- forallb_rev in Hds.
      destruct (rev (c :: ds)) as [|e r] eqn:R.
      { apply (f_equal (@List.length N)) in R.
        rewrite length_rev in R. discriminate. }
      now rewrite Hd, Hds.
Qed.

Lemma afterMarker_split (s rest : jsstring) :
  Shape.afterMarker s = Some rest ->
  exists marker, s = marker ++ rest /\ Shape.isMarker marker = true.
Proof.
  unfold Shape.afterMarker. destruct s as [|c s]; [discriminate|].
  destruct (Utils.unorderedMarker c) eqn:Em.
  - intros H; injection H as ->. exists [c]. split; [reflexivity|].
    apply isMarker_cases. left. now exists c.
  - destruct (isDigit c) eqn:Ed; [|discriminate].
    destruct (Shape.dropWhile isDigit s) as [|d s3] eqn:Edrop; [discriminate|].
    destruct (Utils.orderedDelimiter d) eqn:Eo; [|discriminate].
    intros H; injection H as ->.
    exists ((c :: Shape.takeWhile isDigit s) ++ [d]). split.
    + simpl. rewrite <- app_assoc. simpl. rewrite <- Edrop.
      now rewrite takeWhile_dropWhile.
    + apply isMarker_cases. right.
      exists c, (Shape.takeWhile isDigit s), d. repeat split; auto.
      simpl. now rewrite Ed, takeWhile_all.
Qed.

Lemma marker_head (m : jsstring) :
  Shape.isMarker m = true ->
  exists c r, m = c :: r /\ isSpace c = false.
Proof.
  intros H. apply isMarker_cases in H
    as [[c [-> H]]|[c [ds [d [-> [Hds Hd]]]]]].
  - exists c, []. split; [reflexivity | now apply marker_not_space].
  - exists c, (ds ++ [d]). split; [reflexivity|].
    simpl in Hds. apply andb_true_iff in Hds as [Hc _].
    now apply digit_not_space.
Qed.

Lemma afterMarker_app (marker rest : jsstring) :
  Shape.isMarker marker = true ->
  Shape.afterMarker (marker ++ rest) = Some rest.
Proof.
  intros H. apply isMarker_cases in H
    as [[c [-> H]]|[c [ds [d [-> [Hds Hd]]]]]]; simpl.
  - now rewrite H.
  - simpl in Hds. apply andb_true_iff in Hds as [Hc Hds].
    destruct (Utils.unorderedMarker c) eqn:Em.
    { apply marker_not_digit in Em. congruence. }
    rewrite Hc, <- app_assoc. simpl.
    rewrite dropWhile_app_stop; [now rewrite Hd | exact Hds |].
    now apply delimiter_not_digit.
Qed.

(** A line has a bullet exactly when it is laid out as indentation,
    marker, a gap of white space, and a rest that starts with something
    else; [Shape.afterBullet] returns that rest. *)
Lemma afterBullet_layout (line rest : jsstring) :
  Shape.afterBullet line = Some rest <->
  exists indent marker gap, Shape.BulletLayout line indent marker gap rest.
Proof.
  unfold Shape.afterBullet, Shape.BulletLayout. split.
  - destruct (Shape.afterMarker (Shape.dropWhile isSpace line))
      as [[|c s']|] eqn:E; try discriminate.
    destruct (isSpace c) eqn:Ec; [|discriminate].
    intros H; injection H as <-.
    apply afterMarker_split in E as [marker [E Hm]].
    exists (Shape.takeWhile isSpace line), marker,
      (c :: Shape.takeWhile isSpace s').
    repeat split.
    + rewrite <- (takeWhile_dropWhile isSpace line) at 1.
      rewrite E. simpl. now rewrite takeWhile_dropWhile.
    + apply takeWhile_all.
    + exact Hm.
    + discriminate.
    + simpl. now rewrite Ec, takeWhile_all.
    + unfold Shape.noLeadingSpace.
      destruct (Shape.dropWhile isSpace s') as [|d r] eqn:D; [reflexivity|].
      apply dropWhile_head in D. now rewrite D.
  - intros [indent [marker [gap [-> [Hi [Hm [Hg [Hgs Hr]]]]]]]].
    destruct (marker_head _ Hm) as [c [r [Em Hc]]].
    rewrite dropWhile_app_stop; [| exact Hi | rewrite Em; exact Hc].
    rewrite afterMarker_app by exact Hm.
    destruct gap as [|g gap]; [congruence|]. simpl in *.
    apply andb_true_iff in Hgs as [Hg1 Hg2]. rewrite Hg1.
    rewrite dropWhile_app_stop; [reflexivity | exact Hg2 |].
    destruct rest as [|e rest]; [exact I|].
    simpl in Hr. now apply negb_true_iff in Hr.
Qed.

Lemma layout_length (line indent marker gap rest : jsstring) :
  Shape.BulletLayout line indent marker gap rest ->
  (List.length line - List.length rest)%nat
  = List.length (indent ++ marker ++ gap)
  /\ firstn (List.length (indent ++ marker ++ gap)) line
     = indent ++ marker ++ gap
  /\ skipn (List.length (indent ++ marker ++ gap)) line = rest.
Proof.
  intros [-> _].
  replace (indent ++ marker ++ gap ++ rest)
    with ((indent ++ marker ++ gap) ++ rest)
    by (now rewrite <- !app_assoc).
  generalize (indent ++ marker ++ gap) as pre. intros pre.
  rewrite length_app. split; [lia|]. split.
  - rewrite firstn_app, firstn_all, Nat.sub_diag. simpl. apply app_nil_r.
  - rewrite skipn_app, skipn_all, Nat.sub_diag. reflexivity.
Qed.

(** The helpers of [utils.ts] in terms of the layout. *)
Lemma isCursorInListLine_afterBullet (line : jsstring) :
  Utils.isCursorInListLine line
  = match Shape.afterBullet line with Some _ => true | None => false end.
Proof.
  unfold Utils.isCursorInListLine, test. rewrite exec_bullet.
  destruct (Shape.afterBullet line); reflexivity.
Qed.

Lemma getInsertPositionAfterBullet_afterBullet (line : jsstring) :
  Utils.getInsertPositionAfterBullet line
  = match Shape.afterBullet line with
    | Some rest => Z.of_nat (List.length line - List.length rest)
    | None => -1
    end.
Proof.
  unfold Utils.getInsertPositionAfterBullet. rewrite exec_bullet.
  destruct (Shape.afterBullet line); reflexivity.
Qed.

Lemma getInsertPositionAfterBullet_range (line : jsstring) :
  -1 <= Utils.getInsertPositionAfterBullet line <= len line.
Proof.
  rewrite getInsertPositionAfterBullet_afterBullet. unfold len.
  destruct (Shape.afterBullet line); lia.
Qed.

Lemma isCursorInListLine_position (line : jsstring) :
  Utils.isCursorInListLine line
  = negb (Utils.getInsertPositionAfterBullet line =? -1).
Proof.
  rewrite isCursorInListLine_afterBullet,
    getInsertPositionAfterBullet_afterBullet.
  destruct (Shape.afterBullet line); [|reflexivity].
  symmetry. apply negb_true_iff, Z.eqb_neq. lia.
Qed.

(** Dropping the tail of a four-part pattern keeps every match. *)
Lemma rmatch_drop_tail (A B : Type) (a b c tail : regex)
      (k : jsstring -> option A) (k' : jsstring -> option B) (s : jsstring) :
  (forall s', k' s' <> None) ->
  rmatch (Cat a (Cat b (Cat c tail))) s k <> None ->
  rmatch (Cat a (Cat b c)) s k' <> None.
Proof.
  intros Hk. simpl.
  apply rmatch_mono. intros s1.
  apply rmatch_mono. intros s2.
  apply rmatch_mono. intros s3 _. apply Hk.
Qed.

(** Every task line is a list line: the task pattern is the bullet pattern
    followed by the checkbox. *)
Lemma task_line_is_list_line (line : jsstring) :
  Utils.isListLineTask line = true -> Utils.isCursorInListLine line = true.
Proof.
  unfold Utils.isListLineTask, Utils.isCursorInListLine, test, exec.
  intros H.
  match goal with
  | |- match ?m with Some _ => true | None => false end = true =>
      assert (G : m <> None); [|destruct m; congruence]
  end.
  unfold Utils.LIST_BULLET_REGEX.
  eapply rmatch_drop_tail; [discriminate|].
  unfold Utils.LIST_TASK_REGEX in H.
  match type of H with
  | match ?m with Some _ => true | None => false end = true =>
      intros E; rewrite E in H; discriminate
  end.
Qed.

(** ** The resolver *)

Section Resolver.
Import Shape.
Variable M : MomentLib.
Variable now : Instant M.
Variable isCodeBlockStartEnd : jsstring -> bool.
Implicit Types (line pattern : jsstring) (flag : bool).

(** The resolver, step by step. *)
Lemma resolver_steps line flag pattern :
  Utils.getInsertPositionInLineFromText M now line flag pattern
    isCodeBlockStartEnd =
  if Utils.isListLineTask line then -1
  else if Utils.isCursorInListLine line && negb flag then -1
  else if isCodeBlockStartEnd line then -1
  else match duplicateCheck M now line pattern with
       | Invalid => candidateOffset line
       | _ => -1
       end.
Proof.
  unfold Utils.getInsertPositionInLineFromText, duplicateCheck,
    candidateOffset.
  destruct (Utils.isListLineTask line); [reflexivity|].
  destruct (Utils.isCursorInListLine line && negb flag); [reflexivity|].
  destruct (isCodeBlockStartEnd line); [reflexivity|].
  destruct (mparse M now _ pattern); reflexivity.
Qed.

Lemma resolver_after_steps line flag pattern :
  reachesDuplicateCheck line flag isCodeBlockStartEnd = true ->
  Utils.getInsertPositionInLineFromText M now line flag pattern
    isCodeBlockStartEnd =
  match duplicateCheck M now line pattern with
  | Invalid => candidateOffset line
  | _ => -1
  end.
Proof.
  unfold reachesDuplicateCheck. rewrite resolver_steps.
  destruct (Utils.isListLineTask line); [discriminate|].
  destruct (Utils.isCursorInListLine line && negb flag); [discriminate|].
  destruct (isCodeBlockStartEnd line); [discriminate|]. reflexivity.
Qed.

Lemma candidateOffset_range line : 0 <= candidateOffset line <= len line.
Proof.
  unfold candidateOffset.
  pose proof (getInsertPositionAfterBullet_range line) as R.
  pose proof (isCursorInListLine_position line) as P.
  destruct (Utils.isCursorInListLine line).
  - symmetry in P. apply negb_true_iff, Z.eqb_neq in P. lia.
  - unfold len. lia.
Qed.

(** A result other than the sentinel tells which steps were passed. *)
Lemma resolver_offset_inv line flag pattern :
  Utils.getInsertPositionInLineFromText M now line flag pattern
    isCodeBlockStartEnd <> -1 ->
  reachesDuplicateCheck line flag isCodeBlockStartEnd = true
  /\ duplicateCheck M now line pattern = Invalid
  /\ Utils.getInsertPositionInLineFromText M now line flag pattern
    isCodeBlockStartEnd = candidateOffset line.
Proof.
  unfold reachesDuplicateCheck. rewrite resolver_steps.
  destruct (Utils.isListLineTask line); [congruence|].
  destruct (Utils.isCursorInListLine line && negb flag); [congruence|].
  destruct (isCodeBlockStartEnd line); [congruence|].
  destruct (duplicateCheck M now line pattern); try congruence.
  intros _. auto.
Qed.
End Resolver.

(** ** Classification of the line *)

(** C2. A task line (bullet, checkbox token, white space) is skipped: the
    resolver returns -1 whatever the flag, the pattern, the date library
    and the code-fence predicate are.  The task test comes first: such a
    line also matches the bullet pattern, and with the flag on the bullet
    step alone would have proposed an offset. *)
Theorem task_line_skipped :
  forall (M : MomentLib) (now : Instant M) (line : jsstring) (flag : bool)
         (pattern : jsstring) (isCodeBlockStartEnd : jsstring -> bool),
    Utils.isListLineTask line = true ->
    Utils.getInsertPositionInLineFromText M now line flag pattern
      isCodeBlockStartEnd = -1
    /\ Utils.isCursorInListLine line = true
    /\ 0 <= Utils.getInsertPositionAfterBullet line.
Proof.
  intros M now line flag pattern isCB H. split; [|split].
  - rewrite resolver_steps, H. reflexivity.
  - now apply task_line_is_list_line.
  - apply task_line_is_list_line in H.
    pose proof (candidateOffset_range line) as R.
    unfold Shape.candidateOffset in R. rewrite H in R. lia.
Qed.

Lemma task_line_skipped_witness :
  Utils.isListLineTask (lit "- [ ] task") = true
  /\ Utils.getInsertPositionInLineFromText RefMoment.lib Samples.noon
       (lit "- [ ] task") true Samples.defaultFormat
       Main.isCodeBlockStartEnd = -1.
Proof.
  split; [reflexivity|].
  apply (task_line_skipped RefMoment.lib Samples.noon (lit "- [ ] task")
           true Samples.defaultFormat Main.isCodeBlockStartEnd).
  reflexivity.
Defined.

(** C3. A list line that is not a task line: with the flag off the
    resolver returns -1; with the flag on the candidate offset is the
    index just after the indentation, the marker and all the white space
    that follows the marker, and the resolver goes on to the code-fence
    and duplicate checks with that offset.  The offsets of [- item],
    [1. item] and of the indented [  3. item] are 2, 3 and 5. *)
Theorem bullet_line_offset :
  (forall (M : MomentLib) (now : Instant M) (line pattern : jsstring)
          (isCodeBlockStartEnd : jsstring -> bool),
      Utils.isCursorInListLine line = true ->
      Utils.isListLineTask line = false ->
      Utils.getInsertPositionInLineFromText M now line false pattern
        isCodeBlockStartEnd = -1
      /\ exists indent marker gap rest,
          Shape.BulletLayout line indent marker gap rest
          /\ Utils.getInsertPositionAfterBullet line
             = len (indent ++ marker ++ gap)
          /\ Utils.getInsertPositionInLineFromText M now line true pattern
               isCodeBlockStartEnd
             = if isCodeBlockStartEnd line then -1
               else match mparse M now
                            (substring line (len (indent ++ marker ++ gap))
                               (len (indent ++ marker ++ gap)
                                + len (mformat M now pattern)))
                            pattern with
                    | Invalid => len (indent ++ marker ++ gap)
                    | _ => -1
                    end)
  /\ Utils.getInsertPositionAfterBullet (lit "- item") = 2
  /\ Utils.getInsertPositionAfterBullet (lit "1. item") = 3
  /\ Utils.getInsertPositionAfterBullet (lit "  3. item") = 5.
Proof.
  split; [|repeat split].
  intros M now line pattern isCB Hlist Htask. split.
  - rewrite resolver_steps, Htask, Hlist. reflexivity.
  - pose proof (isCursorInListLine_afterBullet line) as Hb.
    rewrite Hlist in Hb.
    destruct (Shape.afterBullet line) as [rest|] eqn:E; [|discriminate].
    pose proof E as L. apply afterBullet_layout in L
      as [indent [marker [gap L]]].
    exists indent, marker, gap, rest.
    destruct (layout_length _ _ _ _ _ L) as [Hlen _].
    assert (Hpos : Utils.getInsertPositionAfterBullet line
                   = len (indent ++ marker ++ gap)).
    { rewrite getInsertPositionAfterBullet_afterBullet, E, Hlen.
      reflexivity. }
    split; [exact L|]. split; [exact Hpos|].
    rewrite resolver_steps, Htask, Hlist. simpl.
    unfold Shape.duplicateCheck, Shape.candidateOffset.
    rewrite Hlist, Hpos. reflexivity.
Qed.

Lemma bullet_line_offset_witness :
  Utils.isCursorInListLine (lit "- item") = true
  /\ Utils.isListLineTask (lit "- item") = false
  /\ Utils.getInsertPositionInLineFromText RefMoment.lib Samples.noon
       (lit "- item") false Samples.defaultFormat
       Main.isCodeBlockStartEnd = -1.
Proof.
  split; [reflexivity|]. split; [reflexivity|].
  apply (proj1 bullet_line_offset RefMoment.lib Samples.noon (lit "- item")
           Samples.defaultFormat Main.isCodeBlockStartEnd);
    reflexivity.
Defined.

(** C4. A code-fence boundary, a line that starts with a backtick or ends
    with three backticks, is skipped: the resolver returns -1 whether or
    not the line is also a list or task line, whatever the flag and the
    pattern. *)
Theorem code_fence_skipped :
  forall (M : MomentLib) (now : Instant M) (line : jsstring) (flag : bool)
         (pattern : jsstring),
    ((exists rest, line = lit "`" ++ rest)
     \/ (exists front, line = front ++ lit "```")) ->
    Main.isCodeBlockStartEnd line = true
    /\ Utils.getInsertPositionInLineFromText M now line flag pattern
         Main.isCodeBlockStartEnd = -1.
Proof.
  intros M now line flag pattern H.
  assert (F : Main.isCodeBlockStartEnd line = true).
  { unfold Main.isCodeBlockStartEnd. apply orb_true_iff.
    destruct H as [H|H]; [left; now apply startsWith_iff
                         | right; now apply endsWith_iff]. }
  split; [exact F|]. rewrite resolver_steps, F.
  destruct (Utils.isListLineTask line); [reflexivity|].
  destruct (Utils.isCursorInListLine line && negb flag); reflexivity.
Qed.

Lemma code_fence_skipped_witness :
  Main.isCodeBlockStartEnd (lit "- ```") = true
  /\ Utils.getInsertPositionInLineFromText RefMoment.lib Samples.noon
       (lit "- ```") true Samples.defaultFormat
       Main.isCodeBlockStartEnd = -1.
Proof.
  apply (code_fence_skipped RefMoment.lib Samples.noon (lit "- ```") true
           Samples.defaultFormat).
  right. exists (lit "- "). reflexivity.
Defined.

(** ** Duplicate detection *)

(** C5. On a line that passes the first three steps, the resolver cuts
    out the text that starts at the candidate offset and is as long as a
    timestamp formatted with the pattern, parses it strictly against the
    pattern, returns -1 when the parse reports a valid date and the
    candidate offset, never -1, when it reports an invalid one.  (The
    third outcome is a parse that does not complete, which the [catch]
    clause answers with -1.)  A line
    that begins with [2025-08-31 12:00:00+00:00 ] is skipped under
    [YYYY-MM-DD HH:mm:ssZ]. *)
Theorem duplicate_detection :
  (forall (M : MomentLib) (now : Instant M) (line : jsstring) (flag : bool)
          (pattern : jsstring) (isCodeBlockStartEnd : jsstring -> bool),
      Shape.reachesDuplicateCheck line flag isCodeBlockStartEnd = true ->
      let p := Shape.candidateOffset line in
      let text := substring line p (p + len (mformat M now pattern)) in
      let result :=
        Utils.getInsertPositionInLineFromText M now line flag pattern
          isCodeBlockStartEnd in
      (mparse M now text pattern = Valid -> result = -1)
      /\ (mparse M now text pattern = Invalid -> result = p /\ result <> -1))
  /\ (forall flag : bool,
         Utils.getInsertPositionInLineFromText RefMoment.lib Samples.noon
           (lit "2025-08-31 12:00:00+00:00 something") flag
           (lit "YYYY-MM-DD HH:mm:ssZ") Main.isCodeBlockStartEnd = -1).
Proof.
  split.
  - intros M now line flag pattern isCB H p text result.
    subst result. rewrite (resolver_after_steps M now isCB _ _ pattern H).
    unfold Shape.duplicateCheck. fold p. fold text.
    pose proof (candidateOffset_range line) as R. fold p in R.
    split; intros ->; [reflexivity|]. split; [reflexivity | lia].
  - intros [|]; vm_compute; reflexivity.
Qed.

Lemma duplicate_detection_witness :
  Shape.reachesDuplicateCheck (lit "- 2025-08-31 12:00:00+00:00 x") true
    Main.isCodeBlockStartEnd = true
  /\ mparse RefMoment.lib Samples.noon
       (lit "2025-08-31 12:00:00+00:00") Samples.defaultFormat = Valid
  /\ Utils.getInsertPositionInLineFromText RefMoment.lib Samples.noon
       (lit "- 2025-08-31 12:00:00+00:00 x") true Samples.defaultFormat
       Main.isCodeBlockStartEnd = -1.
Proof.
  split; [reflexivity|]. split; [reflexivity|].
  apply (proj1 duplicate_detection RefMoment.lib Samples.noon
           (lit "- 2025-08-31 12:00:00+00:00 x") true Samples.defaultFormat
           Main.isCodeBlockStartEnd); reflexivity.
Defined.

(** C6. A plain line, one that is neither a list line nor a task line nor
    a code-fence boundary and whose head the strict parse reports as not
    a date of the pattern, resolves to offset 0 for both values of the
    flag; [plain text] does. *)
Theorem plain_line_offset_zero :
  (forall (M : MomentLib) (now : Instant M) (line : jsstring) (flag : bool)
          (pattern : jsstring) (isCodeBlockStartEnd : jsstring -> bool),
      Utils.isCursorInListLine line = false ->
      Utils.isListLineTask line = false ->
      isCodeBlockStartEnd line = false ->
      mparse M now (substring line 0 (0 + len (mformat M now pattern)))
        pattern = Invalid ->
      Utils.getInsertPositionInLineFromText M now line flag pattern
        isCodeBlockStartEnd = 0)
  /\ (forall flag : bool,
         Utils.getInsertPositionInLineFromText RefMoment.lib Samples.noon
           (lit "plain text") flag Samples.defaultFormat
           Main.isCodeBlockStartEnd = 0).
Proof.
  split.
  - intros M now line flag pattern isCB Hlist Htask Hfence Hparse.
    rewrite resolver_steps, Htask, Hlist, Hfence. simpl.
    unfold Shape.duplicateCheck, Shape.candidateOffset.
    rewrite Hlist, Hparse. reflexivity.
  - intros [|]; vm_compute; reflexivity.
Qed.

Lemma plain_line_offset_zero_witness :
  Utils.isCursorInListLine (lit "no bullet") = false
  /\ Utils.getInsertPositionInLineFromText RefMoment.lib Samples.noon
       (lit "no bullet") false Samples.defaultFormat
       Main.isCodeBlockStartEnd = 0.
Proof.
  split; [reflexivity|].
  apply (proj1 plain_line_offset_zero RefMoment.lib Samples.noon
           (lit "no bullet") false Samples.defaultFormat
           Main.isCodeBlockStartEnd); reflexivity.
Defined.




(** ** Range of the result *)

(** C10. The resolver returns the sentinel -1 or an offset between 0 and
    the length of the line.  The bullet step cannot hand on -1 as a
    candidate: [isCursorInListLine] and [getInsertPositionAfterBullet]
    match the same pattern, so the helper answers -1 exactly on the lines
    that are not list lines, and on a list line its answer is an index of
    the line. *)
Theorem resolver_result_range :
  forall (M : MomentLib) (now : Instant M) (line : jsstring) (flag : bool)
         (pattern : jsstring) (isCodeBlockStartEnd : jsstring -> bool),
    let result :=
      Utils.getInsertPositionInLineFromText M now line flag pattern
        isCodeBlockStartEnd in
    (result = -1 \/ 0 <= result <= len line)
    /\ Utils.isCursorInListLine line
       = negb (Utils.getInsertPositionAfterBullet line =? -1)
    /\ (Utils.isCursorInListLine line = true ->
        0 <= Utils.getInsertPositionAfterBullet line <= len line).
Proof.
  intros M now line flag pattern isCB result. split; [|split].
  - destruct (Z.eq_dec result (-1)) as [E|E]; [now left | right].
    apply resolver_offset_inv in E as [_ [_ E]]. subst result.
    rewrite E. apply candidateOffset_range.
  - apply isCursorInListLine_position.
  - intros H. pose proof (candidateOffset_range line) as R.
    unfold Shape.candidateOffset in R. now rewrite H in R.
Qed.

Lemma resolver_result_range_witness :
  Utils.isCursorInListLine (lit "2) item") = true
  /\ 0 <= Utils.getInsertPositionAfterBullet (lit "2) item")
     <= len (lit "2) item").
Proof.
  split; [reflexivity|].
  apply (resolver_result_range RefMoment.lib Samples.noon (lit "2) item")
           true Samples.defaultFormat Main.isCodeBlockStartEnd).
  reflexivity.
Defined.

(** ** Repeated triggers *)

Lemma getFormattedTimestamp_parts (M : MomentLib) (p : Main.TiditPlugin)
      (now : Instant M) :
  exists suffix,
    Main.getFormattedTimestamp M p now
    = mformat M (Main.timestampMoment M p now)
        (Main.timestampFormat (Main.settings p)) ++ [suffix].
Proof.
  unfold Main.getFormattedTimestamp.
  destruct (Main.insertNewLineAfterTimestamp (Main.settings p));
    eexists; reflexivity.
Qed.

(** Text spliced in after the bullet leaves the bullet where it is, as
    long as the text does not begin with white space. *)
Lemma bullet_kept_by_insertion (line text : jsstring) :
  Utils.isCursorInListLine line = true ->
  text <> [] -> Shape.noLeadingSpace text = true ->
  let line' :=
    Main.insertTextAtLine line (Utils.getInsertPositionAfterBullet line)
      text in
  Utils.isCursorInListLine line' = true
  /\ Utils.getInsertPositionAfterBullet line'
     = Utils.getInsertPositionAfterBullet line.
Proof.
  intros Hlist Hne Hhead line'.
  pose proof (isCursorInListLine_afterBullet line) as Hb.
  rewrite Hlist in Hb.
  destruct (Shape.afterBullet line) as [rest|] eqn:E; [|discriminate].
  pose proof E as L.
  apply afterBullet_layout in L as [indent [marker [gap L]]].
  destruct (layout_length _ _ _ _ _ L) as [Hlen [Hfirst Hskip]].
  assert (Hpos : Utils.getInsertPositionAfterBullet line
                 = Z.of_nat (List.length (indent ++ marker ++ gap))).
  { rewrite getInsertPositionAfterBullet_afterBullet, E, Hlen.
    reflexivity. }
  assert (Hline' : line' = indent ++ marker ++ gap ++ (text ++ rest)).
  { subst line'. unfold Main.insertTextAtLine.
    rewrite Hpos, Nat2Z.id, Hfirst, Hskip.
    now rewrite <- !app_assoc. }
  assert (L' : Shape.BulletLayout line' indent marker gap (text ++ rest)).
  { destruct L as [_ [Hi [Hm [Hg [Hgs _]]]]].
    repeat split; auto.
    destruct text as [|c text]; [congruence | exact Hhead]. }
  assert (E' : Shape.afterBullet line' = Some (text ++ rest)).
  { apply afterBullet_layout. now exists indent, marker, gap. }
  split.
  - rewrite isCursorInListLine_afterBullet, E'. reflexivity.
  - rewrite getInsertPositionAfterBullet_afterBullet, E', Hpos.
    destruct (layout_length _ _ _ _ _ L') as [Hlen' _].
    now rewrite Hlen'.
Qed.

(** C1, as the engine has it.  Insert the formatted timestamp at a
    resolved offset and run the resolver again on the line: it returns -1
    provided that the timestamp round-trips (the strict parse accepts it
    under the pattern and it is as long as a timestamp formatted at the
    second run) and that the insertion does not move the bullet: on a
    list line the inserted text must not begin with white space, and a
    line that was not a list line must not have become one while list
    lines receive timestamps. *)
Theorem idempotent_on_roundtrip :
  forall (M : MomentLib) (now later : Instant M) (p : Main.TiditPlugin)
         (line : jsstring) (flag : bool)
         (isCodeBlockStartEnd : jsstring -> bool),
    let pattern := Main.timestampFormat (Main.settings p) in
    let stamp := mformat M (Main.timestampMoment M p now) pattern in
    let offset :=
      Utils.getInsertPositionInLineFromText M now line flag pattern
        isCodeBlockStartEnd in
    let line' :=
      Main.insertTextAtLine line offset (Main.getFormattedTimestamp M p now)
    in
    0 <= offset ->
    mparse M later stamp pattern = Valid ->
    len stamp = len (mformat M later pattern) ->
    (Utils.isCursorInListLine line = true ->
     Shape.noLeadingSpace (Main.getFormattedTimestamp M p now) = true) ->
    (Utils.isCursorInListLine line = false -> flag = true ->
     Utils.isCursorInListLine line' = false) ->
    Utils.getInsertPositionInLineFromText M later line' flag pattern
      isCodeBlockStartEnd = -1.
Proof.
  intros M now later p line flag isCB pattern stamp offset line'
         Hoff Hvalid Hlen Hhead Hplain.
  assert (Hne : offset <> -1) by lia.
  apply resolver_offset_inv in Hne as [Hreach [_ Hcand]].
  fold offset in Hcand.
  destruct (getFormattedTimestamp_parts M p now) as [suffix Hstamp].
  fold pattern in Hstamp. fold stamp in Hstamp.
  pose proof (candidateOffset_range line) as R. rewrite <- Hcand in R.
  (* the candidate offset of the new line is the old one *)
  assert (Hkeep : Utils.isCursorInListLine line' && negb flag = false ->
                  Shape.candidateOffset line' = offset).
  { intros Hgo. destruct (Utils.isCursorInListLine line) eqn:Hlist.
    - assert (Hpos : offset = Utils.getInsertPositionAfterBullet line).
      { rewrite Hcand. unfold Shape.candidateOffset. now rewrite Hlist. }
      destruct (bullet_kept_by_insertion line
                  (Main.getFormattedTimestamp M p now) Hlist) as [K1 K2].
      + rewrite Hstamp. now destruct stamp.
      + now apply Hhead.
      + rewrite <- Hpos in K1, K2. fold line' in K1, K2.
        unfold Shape.candidateOffset. now rewrite K1, K2.
    - assert (Hpos : offset = 0).
      { rewrite Hcand. unfold Shape.candidateOffset. now rewrite Hlist. }
      unfold Shape.candidateOffset.
      destruct (Utils.isCursorInListLine line') eqn:Hlist'; [|now symmetry].
      simpl in Hgo. apply negb_false_iff in Hgo.
      discriminate (Hplain eq_refl Hgo). }
  rewrite resolver_steps.
  destruct (Utils.isListLineTask line'); [reflexivity|].
  destruct (Utils.isCursorInListLine line' && negb flag) eqn:Hgo;
    [reflexivity|].
  destruct (isCB line'); [reflexivity|].
  unfold Shape.duplicateCheck. rewrite (Hkeep eq_refl), <- Hlen.
  assert (Hcut : substring line' offset (offset + len stamp) = stamp).
  { subst line'. unfold Main.insertTextAtLine. rewrite Hstamp.
    rewrite <- app_assoc.
    assert (Hfirst : len (firstn (Z.to_nat offset) line) = offset).
    { unfold len in *. rewrite length_firstn. lia. }
    rewrite <- Hfirst at 3 4. apply substring_middle. }
  rewrite Hcut, Hvalid. reflexivity.
Qed.

Lemma idempotent_on_roundtrip_witness :
  0 <= Utils.getInsertPositionInLineFromText RefMoment.lib Samples.noon
         (lit "- item") true Samples.defaultFormat Main.isCodeBlockStartEnd
  /\ mparse RefMoment.lib Samples.noon
       (lit "2026-11-02 13:00:00+01:00") Samples.defaultFormat = Valid
  /\ Utils.getInsertPositionInLineFromText RefMoment.lib Samples.noon
       (lit "- 2026-11-02 13:00:00+01:00 item") true Samples.defaultFormat
       Main.isCodeBlockStartEnd = -1.
Proof.
  split; [vm_compute; discriminate|]. split; [reflexivity|].
  apply (idempotent_on_roundtrip RefMoment.lib Samples.noon Samples.noon
           (Samples.plugin Samples.defaultFormat) (lit "- item") true
           Main.isCodeBlockStartEnd).
  - vm_compute; discriminate.
  - reflexivity.
  - reflexivity.
  - intros _. reflexivity.
  - intros H. vm_compute in H. discriminate H.
Defined.

(** C1 as stated fails.  Under the pattern [D. M. YYYY] the resolver
    sends [plain text] to offset 0; the text inserted on 2 November 2026
    is [2. 11. 2026 ], whose first three units read as an ordered list
    marker, so with timestamps on list lines the second run looks for a
    date after that marker, finds [11. 2026 pl], and returns 3. *)
Lemma dotted_date_reinserted :
  Utils.getInsertPositionInLineFromText RefMoment.lib Samples.noon
    (lit "plain text") true Samples.dottedFormat Main.isCodeBlockStartEnd = 0
  /\ Main.insertTextAtLine (lit "plain text") 0
       (Main.getFormattedTimestamp RefMoment.lib
          (Samples.plugin Samples.dottedFormat) Samples.noon)
     = lit "2. 11. 2026 plain text"
  /\ Utils.getInsertPositionInLineFromText RefMoment.lib Samples.noon
       (Main.insertTextAtLine (lit "plain text")
          (Utils.getInsertPositionInLineFromText RefMoment.lib Samples.noon
             (lit "plain text") true Samples.dottedFormat
             Main.isCodeBlockStartEnd)
          (Main.getFormattedTimestamp RefMoment.lib
             (Samples.plugin Samples.dottedFormat) Samples.noon))
       true Samples.dottedFormat Main.isCodeBlockStartEnd = 3
  /\ 3 <> -1.
Proof. repeat split; try (vm_compute; reflexivity). discriminate. Qed.

(** Each of the other conditions of the theorem above is needed as
    well. *)

(** A pattern of punctuation only is formatted as itself and never parses
    as a date. *)
Example punctuation_pattern_reinserted :
  Samples.secondRun (Samples.plugin (lit "#")) Samples.noon
    (lit "plain text") false
  = (0, lit "# plain text", 0).
Proof. vm_compute. reflexivity. Qed.

(** Timestamps in UTC under [D.M.YYYY] while the local date is a day
    ahead and one digit longer: the check reads one unit too many. *)
Example shorter_stamp_reinserted :
  Samples.secondRun (Samples.pluginUTC (lit "D.M.YYYY")) Samples.lateEvening
    (lit "plain text") false
  = (0, lit "9.11.2026 plain text", 0).
Proof. vm_compute. reflexivity. Qed.

(** A pattern that begins with a blank widens the gap after the bullet. *)
Example blank_first_reinserted :
  Samples.secondRun (Samples.plugin (lit " YYYY")) Samples.noon
    (lit "- item") true
  = (2, lit "-  2026 item", 3).
Proof. vm_compute. reflexivity. Qed.

(** ** The settings fields *)

Lemma addAfterDelay_onChange_stores (p : Main.TiditPlugin) (value : jsstring) :
  Main.addAfterDelay (Main.settings (Main.addAfterDelay_onChange p value))
  = Math_min (parseInt value) (Num 1234).
Proof. reflexivity. Qed.

(** The upper bound is enforced. *)
Lemma addAfterDelay_onChange_upper (p : Main.TiditPlugin) (value : jsstring)
      (d : Z) :
  Main.addAfterDelay (Main.settings (Main.addAfterDelay_onChange p value))
  = Num d -> d <= 1234.
Proof.
  rewrite addAfterDelay_onChange_stores.
  destruct (parseInt value); simpl; [discriminate|].
  intros H; injection H as <-. lia.
Qed.

(** Text that is not a number leaves the manual offset as it was. *)
Lemma timezoneOffset_onChange_ignores (p : Main.TiditPlugin)
      (value : jsstring) :
  parseInt value = NaN -> Main.timezoneOffset_onChange p value = p.
Proof. unfold Main.timezoneOffset_onChange. now intros ->. Qed.

(** C8, what the delay field does instead.  The lower bound 0 is not
    applied and text that is not a number is not ignored: [-5] stores -5
    and [abc] stores [NaN], whatever was stored before. *)
Theorem delay_setting_stored_unchecked :
  forall p : Main.TiditPlugin,
    Main.addAfterDelay
      (Main.settings (Main.addAfterDelay_onChange p (lit "-5"))) = Num (-5)
    /\ Main.addAfterDelay
         (Main.settings (Main.addAfterDelay_onChange p (lit "abc"))) = NaN.
Proof. intros p. split; reflexivity. Qed.

(** ** The rate guard *)

Lemma eqs_refl (s : jsstring) : eqs s s = true.
Proof.
  induction s as [|c s IH]; simpl; [reflexivity|].
  now rewrite N.eqb_refl, IH.
Qed.

(** A delay that is not a number never throttles. *)
Lemma tooSoon_NaN (p : Main.TiditPlugin) (nowMillis : Z) :
  Main.addAfterDelay (Main.settings p) = NaN ->
  Main.tooSoon p nowMillis = false.
Proof. unfold Main.tooSoon. now intros ->. Qed.

Lemma noteActiveFile_settings (p : Main.TiditPlugin) (name : jsstring) :
  Main.settings (Main.noteActiveFile p name) = Main.settings p.
Proof.
  unfold Main.noteActiveFile.
  destruct (negb (eqs (Main.currFileName p) name)); reflexivity.
Qed.



(* ------------------------------------------------------------------ *)
(** * Further properties of the code *)

(** ** Task lines and the list test of the plugin class *)

(** The bullet pattern before any continuation that cannot start with
    white space, or that always succeeds: the continuation runs on what
    follows the bullet. *)
Lemma rmatch_bullet_prefix (A : Type) (k : jsstring -> option A)
      (line : jsstring) :
  (forall c s, isSpace c = true -> k (c :: s) = None)
  \/ (forall s, k s <> None) ->
  rmatch Utils.LIST_BULLET_REGEX line k =
  match Shape.afterBullet line with
  | Some rest => k rest
  | None => None
  end.
Proof.
  intros Hk.
  unfold Utils.LIST_BULLET_REGEX, Shape.afterBullet. cbn [rmatch].
  rewrite star_commit.
  2:{ intros c s' Hc. rewrite (space_not_marker _ Hc), (space_not_digit _ Hc).
      reflexivity. }
  generalize (Shape.dropWhile isSpace line) as s1. intros s1.
  assert (Hgap : forall s2 : jsstring,
             match s2 with
             | c :: s' => if isSpace c then star isSpace s' k else None
             | [] => None
             end =
             match s2 with
             | c :: s' =>
                 if isSpace c then k (Shape.dropWhile isSpace s') else None
             | [] => None
             end).
  { intros [|c s']; [reflexivity|]. destruct (isSpace c); [|reflexivity].
    destruct Hk as [Hk|Hk]; [now apply star_commit | now apply star_total]. }
  destruct s1 as [|c s]; [reflexivity|]. unfold Shape.afterMarker.
  destruct (Utils.unorderedMarker c) eqn:Em.
  - rewrite (marker_not_digit _ Em). rewrite Hgap.
    destruct s as [|d s']; [reflexivity|].
    destruct (isSpace d); [|reflexivity].
    destruct (k (Shape.dropWhile isSpace s')); reflexivity.
  - destruct (isDigit c) eqn:Ed; [|reflexivity].
    rewrite star_commit.
    2:{ intros d s' Hd. now rewrite (digit_not_delimiter _ Hd). }
    destruct (Shape.dropWhile isDigit s) as [|d s3]; [reflexivity|].
    destruct (Utils.orderedDelimiter d); [|reflexivity].
    rewrite Hgap. destruct s3 as [|e s4]; [reflexivity|].
    destruct (isSpace e); reflexivity.
Qed.

Lemma oneOf_single (n c : N) : oneOf [n] c = (c =? n)%N.
Proof. unfold oneOf. simpl. apply orb_false_r. Qed.

Lemma bracket_not_space (c : N) : (c =? 91)%N = true -> isSpace c = false.
Proof. intros H. apply N.eqb_eq in H. now subst. Qed.

(** The task pattern is the bullet pattern followed by the checkbox
    test. *)
Lemma isListLineTask_afterBullet (line : jsstring) :
  Utils.isListLineTask line =
  match Shape.afterBullet line with
  | Some rest => Layout.startsWithCheckbox rest
  | None => false
  end.
Proof.
  unfold Utils.isListLineTask, test, exec.
  set (k0 := fun rest : jsstring =>
               Some (List.length line - List.length rest)%nat).
  set (tail := Cat (Cls (oneOf [91%N]))
                 (Cat (Star (noneOf [93%N]))
                      (Cat (Cls (oneOf [93%N])) (Cls isSpace)))).
  change (rmatch Utils.LIST_TASK_REGEX line k0)
    with (rmatch Utils.LIST_BULLET_REGEX line
            (fun s3 => rmatch tail s3 k0)).
  rewrite rmatch_bullet_prefix.
  2:{ left. intros c s Hc. subst tail. cbn [rmatch].
      rewrite oneOf_single.
      destruct (c =? 91)%N eqn:E; [|reflexivity].
      apply bracket_not_space in E. congruence. }
  destruct (Shape.afterBullet line) as [rest|]; [|reflexivity].
  subst tail. cbn [rmatch]. unfold Layout.startsWithCheckbox.
  destruct rest as [|c s1]; [reflexivity|].
  rewrite oneOf_single. destruct (c =? 91)%N; [|reflexivity]. simpl.
  rewrite star_commit.
  2:{ intros d s' Hd. unfold noneOf in Hd.
      apply negb_true_iff in Hd. unfold oneOf in Hd. simpl in Hd.
      now rewrite Hd. }
  destruct (Shape.dropWhile (noneOf [93%N]) s1) as [|d s2] eqn:D;
    [reflexivity|].
  apply dropWhile_head in D. unfold noneOf in D.
  apply negb_false_iff in D. unfold oneOf in D. simpl in D. rewrite D.
  destruct s2 as [|e s3]; [reflexivity|].
  destruct (isSpace e); reflexivity.
Qed.

(** X1. A line is a task line exactly when it reads: indentation, a list
    marker, at least one unit of white space, an opening bracket, any
    text without a closing bracket (possibly none), the closing bracket,
    and then at least one more unit, which is white space.  A checkbox at
    the very end of the line does not make a task line. *)
Theorem task_line_layout :
  forall line : jsstring,
    Utils.isListLineTask line = true <->
    exists indent marker gap body rest,
      Layout.TaskLayout line indent marker gap body rest.
Proof.
  intros line. rewrite isListLineTask_afterBullet. split.
  - destruct (Shape.afterBullet line) as [rest0|] eqn:E; [|discriminate].
    apply afterBullet_layout in E as [indent [marker [gap L]]].
    destruct L as [Hline [Hi [Hm [Hg [Hgs _]]]]].
    unfold Layout.startsWithCheckbox.
    destruct rest0 as [|c s1]; [discriminate|].
    intros H. apply andb_true_iff in H as [Hc H].
    apply N.eqb_eq in Hc. subst c.
    destruct (Shape.dropWhile (noneOf [93%N]) s1) as [|d [|e r]] eqn:D;
      try discriminate.
    pose proof (dropWhile_head _ _ _ _ D) as Hd.
    unfold noneOf in Hd. apply negb_false_iff in Hd.
    rewrite oneOf_single in Hd. apply N.eqb_eq in Hd. subst d.
    exists indent, marker, gap, (Shape.takeWhile (noneOf [93%N]) s1), (e :: r).
    repeat split; auto.
    + rewrite Hline. do 3 f_equal. simpl. f_equal.
      rewrite <- (takeWhile_dropWhile (noneOf [93%N]) s1) at 1.
      now rewrite D.
    + apply takeWhile_all.
    + now exists e, r.
  - intros [indent [marker [gap [body [rest L]]]]].
    destruct L as [Hline [Hi [Hm [Hg [Hgs [Hb [c [r [Hr Hc]]]]]]]]].
    assert (E : Shape.afterBullet line
                = Some ([91%N] ++ body ++ [93%N] ++ rest)).
    { apply afterBullet_layout. exists indent, marker, gap.
      repeat split; auto. }
    rewrite E. unfold Layout.startsWithCheckbox. simpl.
    rewrite dropWhile_app_stop; [| exact Hb | reflexivity].
    subst rest. exact Hc.
Qed.

Lemma task_line_layout_witness :
  Utils.isListLineTask (lit "  12) [x y] done") = true.
Proof.
  apply (proj2 (task_line_layout (lit "  12) [x y] done"))).
  exists (lit "  "), (lit "12)"), (lit " "), (lit "x y"), (lit " done").
  repeat split; try reflexivity; try discriminate.
  exists 32%N, (lit "done"). split; reflexivity.
Defined.

(** A checkbox that closes the line is no task line, and with
    timestamps on list lines the resolver offers the position after the
    bullet. *)
Example bare_checkbox_is_not_a_task :
  Utils.isListLineTask (lit "- [ ]") = false
  /\ Utils.getInsertPositionAfterBullet (lit "- [ ]") = 2.
Proof. split; reflexivity. Qed.

(** The two patterns of the plugin class, read off the line. *)
Lemma class_isCursorInListLine_closed (line : jsstring) :
  Main.isCursorInListLine line = Layout.classListLine line.
Proof.
  unfold Main.isCursorInListLine, test, exec, Layout.classListLine.
  cbn [rmatch].
  rewrite star_commit.
  2:{ intros c s' Hc. fold Utils.unorderedMarker.
      now rewrite (space_not_marker _ Hc). }
  rewrite star_commit.
  2:{ intros c s' Hc. now rewrite (space_not_digit _ Hc). }
  fold Utils.unorderedMarker.
  destruct (Shape.dropWhile isSpace line) as [|c s']; [reflexivity|].
  destruct (Utils.unorderedMarker c) eqn:Em.
  - rewrite (marker_not_digit _ Em). simpl. rewrite orb_false_r.
    destruct s' as [|e s'']; [reflexivity|]. simpl.
    destruct (isSpace e); reflexivity.
  - simpl. destruct (isDigit c); [|reflexivity]. simpl.
    rewrite star_commit.
    2:{ intros d s3 Hd. rewrite orb_false_r.
        destruct (d =? 46)%N eqn:E; [|reflexivity].
        apply N.eqb_eq in E. subst d. discriminate. }
    destruct (Shape.dropWhile isDigit s') as [|d s3]; [reflexivity|].
    rewrite orb_false_r. destruct (d =? 46)%N; [|reflexivity]. simpl.
    destruct s3 as [|e s4]; [reflexivity|]. simpl.
    destruct (isSpace e); reflexivity.
Qed.

Lemma digits_have_no_paren (l : jsstring) :
  forallb isDigit l = true ->
  forallb (fun c => negb (c =? 41)%N) l = true.
Proof.
  induction l as [|c l IH]; simpl; [reflexivity|].
  intros H. apply andb_true_iff in H as [Hc Hl].
  rewrite (IH Hl), andb_true_r.
  apply negb_true_iff, N.eqb_neq. intros ->. discriminate.
Qed.

Lemma headIsSpace_gap (gap rest : jsstring) :
  gap <> [] -> forallb isSpace gap = true ->
  Layout.headIsSpace (gap ++ rest) = true.
Proof.
  destruct gap as [|g gap]; [congruence|]. simpl.
  intros _ H. now apply andb_true_iff in H as [H _].
Qed.

(** X2. The list test of the plugin class accepts exactly the lines laid
    out as indentation, marker, gap and rest whose marker is [-], [*],
    [+] or digits closed by a full stop: every line it accepts is a list
    line for [utils.ts] as well, and the lines it misses are those
    numbered with a closing parenthesis. *)
Theorem class_list_line_layout :
  forall line : jsstring,
    (Main.isCursorInListLine line = true <->
     exists indent marker gap rest,
       Shape.BulletLayout line indent marker gap rest
       /\ Layout.isClassMarker marker = true)
    /\ (Main.isCursorInListLine line = true ->
        Utils.isCursorInListLine line = true).
Proof.
  intros line.
  assert (Hfwd : Main.isCursorInListLine line = true ->
                 exists indent marker gap rest,
                   Shape.BulletLayout line indent marker gap rest
                   /\ Layout.isClassMarker marker = true).
  { rewrite class_isCursorInListLine_closed. unfold Layout.classListLine.
    destruct (Shape.dropWhile isSpace line) as [|c s'] eqn:D; [discriminate|].
    pose proof (takeWhile_dropWhile isSpace line) as Hsplit.
    rewrite D in Hsplit.
    assert (Hshape : forall marker e r,
               c :: s' = marker ++ e :: r -> isSpace e = true ->
               Layout.isClassMarker marker = true ->
               exists indent marker gap rest,
                 Shape.BulletLayout line indent marker gap rest
                 /\ Layout.isClassMarker marker = true).
    { intros marker e r Hm He Hc.
      exists (Shape.takeWhile isSpace line), marker,
        (e :: Shape.takeWhile isSpace r), (Shape.dropWhile isSpace r).
      split; [|exact Hc]. repeat split.
      - rewrite <- Hsplit at 1. rewrite Hm. simpl.
        now rewrite takeWhile_dropWhile.
      - apply takeWhile_all.
      - unfold Layout.isClassMarker in Hc.
        now apply andb_true_iff in Hc as [Hc _].
      - discriminate.
      - simpl. now rewrite He, takeWhile_all.
      - unfold Shape.noLeadingSpace.
        destruct (Shape.dropWhile isSpace r) as [|x y] eqn:E; [reflexivity|].
        apply dropWhile_head in E. now rewrite E. }
    intros H. apply orb_true_iff in H as [H|H].
    - apply andb_true_iff in H as [Hm Hs].
      destruct s' as [|e r]; [discriminate|]. simpl in Hs.
      apply (Hshape [c] e r); [reflexivity | exact Hs |].
      unfold Layout.isClassMarker. apply andb_true_iff. split.
      + apply isMarker_cases. left. now exists c.
      + simpl. rewrite andb_true_r. oneOf_cases Hm; reflexivity.
    - apply andb_true_iff in H as [Hc H].
      destruct (Shape.dropWhile isDigit s') as [|d s''] eqn:E;
        [discriminate|].
      apply andb_true_iff in H as [Hd Hs]. apply N.eqb_eq in Hd. subst d.
      destruct s'' as [|e r]; [discriminate|]. simpl in Hs.
      apply (Hshape ((c :: Shape.takeWhile isDigit s') ++ [46%N]) e r).
      + simpl. rewrite <- app_assoc. simpl. rewrite <- E.
        now rewrite takeWhile_dropWhile.
      + exact Hs.
      + unfold Layout.isClassMarker. apply andb_true_iff. split.
        * apply isMarker_cases. right.
          exists c, (Shape.takeWhile isDigit s'), 46%N.
          repeat split. simpl. now rewrite Hc, takeWhile_all.
        * rewrite forallb_app. apply andb_true_iff. split; [|reflexivity].
          apply digits_have_no_paren. simpl.
          now rewrite Hc, takeWhile_all. }
  split; [split; [exact Hfwd|] |].
  - intros [indent [marker [gap [rest [L Hc]]]]].
    destruct L as [Hline [Hi [Hm [Hg [Hgs Hr]]]]].
    rewrite class_isCursorInListLine_closed. unfold Layout.classListLine.
    destruct (marker_head _ Hm) as [c0 [r0 [Em Hc0]]].
    rewrite Hline.
    rewrite dropWhile_app_stop; [| exact Hi | rewrite Em; exact Hc0].
    unfold Layout.isClassMarker in Hc.
    apply andb_true_iff in Hc as [_ Hparen].
    apply isMarker_cases in Hm
      as [[c [-> Hu]]|[c [ds [d [-> [Hds Hd]]]]]]; simpl.
    + rewrite Hu, (headIsSpace_gap gap rest Hg Hgs). reflexivity.
    + simpl in Hds. apply andb_true_iff in Hds as [Hc' Hds].
      rewrite Hc'. rewrite <- app_assoc. simpl.
      rewrite dropWhile_app_stop;
        [| exact Hds | now apply delimiter_not_digit].
      simpl in Hparen. apply andb_true_iff in Hparen as [_ Hparen].
      rewrite forallb_app in Hparen.
      apply andb_true_iff in Hparen as [_ Hparen]. simpl in Hparen.
      rewrite andb_true_r in Hparen.
      apply negb_true_iff, N.eqb_neq in Hparen.
      assert (d = 46%N) as -> by (oneOf_cases Hd; congruence).
      simpl. rewrite (headIsSpace_gap gap rest Hg Hgs).
      apply orb_true_r.
  - intros H. destruct (Hfwd H) as [indent [marker [gap [rest [L _]]]]].
    rewrite isCursorInListLine_afterBullet.
    assert (E : Shape.afterBullet line = Some rest).
    { apply afterBullet_layout. now exists indent, marker, gap. }
    now rewrite E.
Qed.

Lemma class_list_line_layout_witness :
  Main.isCursorInListLine (lit "  3. item") = true
  /\ Utils.isCursorInListLine (lit "  3. item") = true.
Proof.
  assert (H : Main.isCursorInListLine (lit "  3. item") = true).
  { apply (proj2 (proj1 (class_list_line_layout (lit "  3. item")))).
    exists (lit "  "), (lit "3."), (lit " "), (lit "item").
    split; [|reflexivity]. repeat split; try reflexivity. discriminate. }
  split; [exact H|].
  exact (proj2 (class_list_line_layout (lit "  3. item")) H).
Defined.

(** A line numbered with a parenthesis is a list line for [utils.ts] and
    plain text for the plugin class. *)
Example paren_numbered_line :
  Utils.isCursorInListLine (lit "2) item") = true
  /\ Main.isCursorInListLine (lit "2) item") = false.
Proof. split; reflexivity. Qed.

(** ** The two resolvers side by side *)

(** X3. On a line without white space at either end that both list
    tests classify alike, the resolver of the plugin class and the
    resolver of [utils.ts] with timestamps on list lines switched off
    return the same result. *)
Theorem resolvers_agree :
  forall (M : MomentLib) (p : Main.TiditPlugin) (now : Instant M)
         (line : jsstring),
    trim line = line ->
    Main.isCursorInListLine line = Utils.isCursorInListLine line ->
    Main.getInsertPositionInLine M p now line
    = Utils.getInsertPositionInLineFromText M now line false
        (Main.timestampFormat (Main.settings p)) Main.isCodeBlockStartEnd.
Proof.
  intros M p now line Htrim Hsame.
  unfold Main.getInsertPositionInLine. rewrite resolver_steps, Hsame, Htrim.
  destruct (Utils.isCursorInListLine line) eqn:Hlist.
  - destruct (Utils.isListLineTask line); reflexivity.
  - destruct (Utils.isListLineTask line) eqn:Htask.
    { apply task_line_is_list_line in Htask. congruence. }
    simpl. destruct (Main.isCodeBlockStartEnd line); [reflexivity|].
    unfold Shape.duplicateCheck, Shape.candidateOffset. rewrite Hlist.
    simpl. destruct (mparse M now _ _); reflexivity.
Qed.

Lemma resolvers_agree_witness :
  trim (lit "plain text") = lit "plain text"
  /\ Main.getInsertPositionInLine RefMoment.lib
       (Samples.plugin Samples.defaultFormat) Samples.noon (lit "plain text")
     = Utils.getInsertPositionInLineFromText RefMoment.lib Samples.noon
         (lit "plain text") false Samples.defaultFormat
         Main.isCodeBlockStartEnd.
Proof.
  split; [reflexivity|].
  apply (resolvers_agree RefMoment.lib (Samples.plugin Samples.defaultFormat)
           Samples.noon (lit "plain text")); reflexivity.
Defined.

(** X4. With timestamps on list lines switched off the resolver returns
    -1 or 0, never a position inside the line; the switch has no effect
    on a line that is not a list line; and a line that resolves to 0 with
    the switch off resolves to 0 with it on. *)
Theorem flag_matters_on_list_lines_only :
  forall (M : MomentLib) (now : Instant M) (line pattern : jsstring)
         (isCodeBlockStartEnd : jsstring -> bool),
    let off :=
      Utils.getInsertPositionInLineFromText M now line false pattern
        isCodeBlockStartEnd in
    let on :=
      Utils.getInsertPositionInLineFromText M now line true pattern
        isCodeBlockStartEnd in
    (off = -1 \/ off = 0)
    /\ (Utils.isCursorInListLine line = false -> on = off)
    /\ (off = 0 -> on = 0).
Proof.
  intros M now line pattern isCB off on.
  assert (Hplain : Utils.isCursorInListLine line = false -> on = off).
  { intros H. subst on off. rewrite !resolver_steps, H. reflexivity. }
  assert (Hoff : off = -1
                 \/ (off = 0 /\ Utils.isCursorInListLine line = false)).
  { subst off. rewrite resolver_steps.
    destruct (Utils.isListLineTask line); [now left|].
    destruct (Utils.isCursorInListLine line) eqn:Hlist; [now left|].
    simpl. destruct (isCB line); [now left|].
    unfold Shape.candidateOffset. rewrite Hlist.
    destruct (Shape.duplicateCheck M now line pattern); auto. }
  split; [|split].
  - destruct Hoff as [H|[H _]]; auto.
  - exact Hplain.
  - intros H0. destruct Hoff as [H|[_ H]]; [lia|].
    now rewrite (Hplain H).
Qed.

Lemma flag_matters_on_list_lines_only_witness :
  Utils.isCursorInListLine (lit "no bullet") = false
  /\ Utils.getInsertPositionInLineFromText RefMoment.lib Samples.noon
       (lit "no bullet") true Samples.defaultFormat Main.isCodeBlockStartEnd
     = Utils.getInsertPositionInLineFromText RefMoment.lib Samples.noon
         (lit "no bullet") false Samples.defaultFormat
         Main.isCodeBlockStartEnd.
Proof.
  split; [reflexivity|].
  apply (proj1 (proj2 (flag_matters_on_list_lines_only RefMoment.lib
           Samples.noon (lit "no bullet") Samples.defaultFormat
           Main.isCodeBlockStartEnd))).
  reflexivity.
Defined.

(** X5. An offset returned by the resolver says what the line is not: it
    is no task line and no code-fence boundary, it is a list line only
    if list lines receive timestamps, the offset is 0 or the end of the
    bullet, and the strict parse has rejected the text that starts
    there. *)
Theorem offset_certifies_line :
  forall (M : MomentLib) (now : Instant M) (line : jsstring) (flag : bool)
         (pattern : jsstring) (isCodeBlockStartEnd : jsstring -> bool)
         (offset : Z),
    Utils.getInsertPositionInLineFromText M now line flag pattern
      isCodeBlockStartEnd = offset ->
    0 <= offset ->
    Utils.isListLineTask line = false
    /\ isCodeBlockStartEnd line = false
    /\ (Utils.isCursorInListLine line = true ->
        flag = true /\ offset = Utils.getInsertPositionAfterBullet line)
    /\ (Utils.isCursorInListLine line = false -> offset = 0)
    /\ mparse M now
         (substring line offset (offset + len (mformat M now pattern)))
         pattern = Invalid.
Proof.
  intros M now line flag pattern isCB offset Hres Hpos.
  assert (Hne : Utils.getInsertPositionInLineFromText M now line flag pattern
                  isCB <> -1) by lia.
  apply resolver_offset_inv in Hne as [Hreach [Hdup Hcand]].
  rewrite Hres in Hcand.
  unfold Shape.reachesDuplicateCheck in Hreach.
  apply andb_true_iff in Hreach as [Hreach Hfence].
  apply andb_true_iff in Hreach as [Htask Hlist].
  apply negb_true_iff in Htask, Hfence, Hlist.
  unfold Shape.duplicateCheck in Hdup. rewrite <- Hcand in Hdup.
  unfold Shape.candidateOffset in Hcand.
  repeat split; auto.
  - destruct flag; [reflexivity|]. rewrite H in Hlist. discriminate.
  - now rewrite H in Hcand.
  - intros H. now rewrite H in Hcand.
Qed.

Lemma offset_certifies_line_witness :
  Utils.getInsertPositionInLineFromText RefMoment.lib Samples.noon
    (lit "1. item") true Samples.defaultFormat Main.isCodeBlockStartEnd = 3
  /\ mparse RefMoment.lib Samples.noon
       (substring (lit "1. item") 3
          (3 + len (mformat RefMoment.lib Samples.noon
                      Samples.defaultFormat)))
       Samples.defaultFormat = Invalid.
Proof.
  split; [reflexivity|].
  apply (offset_certifies_line RefMoment.lib Samples.noon (lit "1. item")
           true Samples.defaultFormat Main.isCodeBlockStartEnd 3).
  - reflexivity.
  - lia.
Defined.

(** X6. Any line that reads indentation, marker, gap, rest (the rest not
    starting with white space) is a list line, and the position after
    the bullet is the joint length of the first three parts, however the
    line was cut. *)
Theorem layout_is_list_line :
  forall line indent marker gap rest : jsstring,
    Shape.BulletLayout line indent marker gap rest ->
    Utils.isCursorInListLine line = true
    /\ Utils.getInsertPositionAfterBullet line
       = len (indent ++ marker ++ gap)
    /\ skipn (Z.to_nat (Utils.getInsertPositionAfterBullet line)) line
       = rest.
Proof.
  intros line indent marker gap rest L.
  assert (E : Shape.afterBullet line = Some rest).
  { apply afterBullet_layout. now exists indent, marker, gap. }
  destruct (layout_length _ _ _ _ _ L) as [Hlen [_ Hskip]].
  assert (Hpos : Utils.getInsertPositionAfterBullet line
                 = len (indent ++ marker ++ gap)).
  { rewrite getInsertPositionAfterBullet_afterBullet, E, Hlen. reflexivity. }
  split; [|split].
  - rewrite isCursorInListLine_afterBullet, E. reflexivity.
  - exact Hpos.
  - rewrite Hpos. unfold len. now rewrite Nat2Z.id.
Qed.

Lemma layout_is_list_line_witness :
  Utils.isCursorInListLine (lit " 10)   x") = true
  /\ Utils.getInsertPositionAfterBullet (lit " 10)   x") = 7.
Proof.
  destruct (layout_is_list_line (lit " 10)   x") (lit " ") (lit "10)")
              (lit "   ") (lit "x")) as [H1 [H2 _]].
  - repeat split; try reflexivity. discriminate.
  - split; [exact H1 | exact H2].
Defined.

(** ** Insertion and the formatted timestamp *)

Lemma substring_prefix (b c : jsstring) : substring (b ++ c) 0 (len b) = b.
Proof.
  pose proof (substring_middle [] b c) as H.
  change (len []) with 0 in H. now rewrite Z.add_0_l in H.
Qed.

Lemma firstn_skipn_len (line : jsstring) (pos : Z) :
  0 <= pos <= len line ->
  len (firstn (Z.to_nat pos) line) = pos.
Proof. unfold len. intros H. rewrite length_firstn. lia. Qed.

Lemma insertTextAtLine_parts (line text : jsstring) (pos : Z) :
  0 <= pos <= len line ->
  len (Main.insertTextAtLine line pos text) = len line + len text
  /\ substring (Main.insertTextAtLine line pos text) pos (pos + len text)
     = text
  /\ substring (Main.insertTextAtLine line pos text) 0 pos
     = substring line 0 pos
  /\ skipn (Z.to_nat (pos + len text)) (Main.insertTextAtLine line pos text)
     = skipn (Z.to_nat pos) line.
Proof.
  intros Hpos.
  unfold Main.insertTextAtLine.
  pose proof (firstn_skipn_len line pos Hpos) as Hfirst.
  set (a := firstn (Z.to_nat pos) line) in *.
  set (c := skipn (Z.to_nat pos) line).
  assert (Hline : line = a ++ c) by (symmetry; apply firstn_skipn).
  split; [|split; [|split]].
  - rewrite Hline at 1. unfold len. rewrite !length_app. lia.
  - rewrite <- Hfirst at 1 2. apply substring_middle.
  - rewrite Hline at 1. rewrite <- Hfirst.
    now rewrite !substring_prefix.
  - replace (Z.to_nat (pos + len text))
      with (List.length (a ++ text)).
    + rewrite app_assoc, skipn_app, skipn_all, Nat.sub_diag. reflexivity.
    + rewrite length_app. unfold len in *. lia.
Qed.

(** X8. A manual offset of zero is never applied: with the offset field
    at 0, switching the manual offset on formats the same timestamp as
    switching it off, the moment of the selected zone. *)
Theorem zero_manual_offset_is_ignored :
  forall (M : MomentLib) (p : Main.TiditPlugin) (now : Instant M),
    Main.timezoneOffset (Main.settings p) = Num 0 ->
    Main.getFormattedTimestamp M
      (Plugin.useManualTimezoneOffset_onChange p true) now
    = Main.getFormattedTimestamp M
        (Plugin.useManualTimezoneOffset_onChange p false) now.
Proof.
  intros M p now H.
  unfold Main.getFormattedTimestamp, Main.timestampMoment,
    Plugin.useManualTimezoneOffset_onChange. simpl.
  rewrite H. reflexivity.
Qed.

Lemma zero_manual_offset_is_ignored_witness :
  Main.getFormattedTimestamp RefMoment.lib
    (Plugin.useManualTimezoneOffset_onChange
       (Samples.plugin Samples.defaultFormat) true) Samples.noon
  = lit "2026-11-02 13:00:00+01:00 ".
Proof.
  rewrite (zero_manual_offset_is_ignored RefMoment.lib
             (Samples.plugin Samples.defaultFormat) Samples.noon eq_refl).
  reflexivity.
Defined.

(** X9. The insert command, with the timestamp followed by a blank:
    the column handed to [setCursor] is just behind the inserted text,
    which starts at the old cursor column and ends with the blank; the
    text on either side of it is what stood on either side of the
    cursor. *)
Theorem command_leaves_cursor_behind_timestamp :
  forall (M : MomentLib) (p : Main.TiditPlugin) (now : Instant M)
         (line : jsstring) (ch : Z),
    0 <= ch <= len line ->
    Main.insertNewLineAfterTimestamp (Main.settings p) = false ->
    let line' := fst (Plugin.insertTimestampCommand M p now line ch) in
    let ch' := snd (Plugin.insertTimestampCommand M p now line ch) in
    let stamp :=
      mformat M (Main.timestampMoment M p now)
        (Main.timestampFormat (Main.settings p)) in
    ch' = ch + len stamp + 1
    /\ substring line' ch ch' = stamp ++ lit " "
    /\ substring line' 0 ch = substring line 0 ch
    /\ skipn (Z.to_nat ch') line' = skipn (Z.to_nat ch) line.
Proof.
  intros M p now line ch Hch Hnl line' ch' stamp.
  subst line' ch'. unfold Plugin.insertTimestampCommand. simpl.
  assert (Hts : Main.getFormattedTimestamp M p now = stamp ++ lit " ").
  { unfold Main.getFormattedTimestamp. now rewrite Hnl. }
  destruct (insertTextAtLine_parts line
              (Main.getFormattedTimestamp M p now) ch Hch)
    as [_ [H2 [H3 H4]]].
  rewrite (Z.add_comm (len _) ch).
  split; [|split; [|split]]; auto.
  - rewrite Hts. unfold len. rewrite length_app. simpl. lia.
  - now rewrite <- Hts.
Qed.

Lemma command_leaves_cursor_behind_timestamp_witness :
  snd (Plugin.insertTimestampCommand RefMoment.lib
         (Samples.plugin Samples.defaultFormat) Samples.noon (lit "ab") 1)
  = 1 + 25 + 1.
Proof.
  apply (command_leaves_cursor_behind_timestamp RefMoment.lib
           (Samples.plugin Samples.defaultFormat) Samples.noon (lit "ab") 1).
  - vm_compute. split; discriminate.
  - reflexivity.
Defined.

(** ** The key handler *)

Lemma eqs_eq (a b : jsstring) : eqs a b = true <-> a = b.
Proof.
  split; [|intros ->; apply eqs_refl].
  revert b. induction a as [|x a IH]; intros [|y b]; simpl;
    try discriminate; [reflexivity|].
  intros H. apply andb_true_iff in H as [H1 H2].
  apply N.eqb_eq in H1. apply IH in H2. congruence.
Qed.

(** The resolver of the plugin class answers -1 or 0. *)
Lemma getInsertPositionInLine_range (M : MomentLib) (p : Main.TiditPlugin)
      (now : Instant M) (lineText : jsstring) :
  Main.getInsertPositionInLine M p now lineText = -1
  \/ Main.getInsertPositionInLine M p now lineText = 0.
Proof.
  unfold Main.getInsertPositionInLine.
  destruct (Main.isCursorInListLine lineText); [now left|].
  destruct (Main.isCodeBlockStartEnd lineText); [now left|].
  destruct (mparse M now _ _); auto.
Qed.

(** Both resolvers and the formatter read the plugin through its
    settings only. *)
Lemma getInsertPositionInLine_settings (M : MomentLib)
      (p q : Main.TiditPlugin) (now : Instant M) (lineText : jsstring) :
  Main.settings p = Main.settings q ->
  Main.getInsertPositionInLine M p now lineText
  = Main.getInsertPositionInLine M q now lineText.
Proof. unfold Main.getInsertPositionInLine. now intros ->. Qed.

Lemma getFormattedTimestamp_settings (M : MomentLib)
      (p q : Main.TiditPlugin) (now : Instant M) :
  Main.settings p = Main.settings q ->
  Main.getFormattedTimestamp M p now = Main.getFormattedTimestamp M q now.
Proof.
  unfold Main.getFormattedTimestamp, Main.timestampMoment. now intros ->.
Qed.

Lemma noteActiveFile_name (p : Main.TiditPlugin) (name : jsstring) :
  Main.currFileName (Main.noteActiveFile p name) = name.
Proof.
  unfold Main.noteActiveFile.
  destruct (eqs (Main.currFileName p) name) eqn:E; simpl; [|reflexivity].
  now apply eqs_eq.
Qed.

Lemma noteActiveFile_same (p : Main.TiditPlugin) :
  Main.noteActiveFile p (Main.currFileName p) = p.
Proof. unfold Main.noteActiveFile. now rewrite eqs_refl. Qed.

Lemma onKeyup_path (M : MomentLib) (p : Main.TiditPlugin) (key : jsstring)
      (editor : option Main.EditorView) (file : option jsstring)
      (now : Instant M) :
  Handler.KeyupPath M p key editor file now (Main.onKeyup M p key editor file now).
Proof.
  unfold Main.onKeyup.
  destruct (Main.tiditOn (Main.settings p)) eqn:Hon; simpl;
    [|apply Handler.PathIgnored; auto].
  destruct (eqs key (lit "Enter")) eqn:Hkey; simpl.
  2:{ apply Handler.PathIgnored. right. left. intros ->.
      rewrite eqs_refl in Hkey. discriminate. }
  apply eqs_eq in Hkey.
  destruct editor as [ed|]; [|apply Handler.PathIgnored; auto].
  destruct file as [name|]; [|apply Handler.PathIgnored; auto].
  destruct (Main.tooSoon (Main.noteActiveFile p name) (mvalueOf M now))
    eqn:Hsoon; [now apply (Handler.PathThrottled M p key _ _ now ed name)|].
  destruct (getInsertPositionInLine_range M (Main.noteActiveFile p name) now
              (Main.previousLineText ed)) as [Hpos|Hpos]; rewrite Hpos; simpl.
  - now apply (Handler.PathSkipped M p key _ _ now ed name).
  - rewrite noteActiveFile_settings, noteActiveFile_name.
    now apply (Handler.PathInserted M p key _ _ now ed name).
Qed.

(** X10. The handler does nothing, to the plugin or to the document,
    when the plugin is switched off, when the key is not [Enter], when
    there is no editor, or when there is no file; in particular a file
    change is not even recorded then. *)
Theorem handler_ignores_event :
  forall (M : MomentLib) (p : Main.TiditPlugin) (key : jsstring)
         (editor : option Main.EditorView) (file : option jsstring)
         (now : Instant M),
    Main.tiditOn (Main.settings p) = false \/ key <> lit "Enter"
    \/ editor = None \/ file = None ->
    Main.onKeyup M p key editor file now = (p, None).
Proof.
  intros M p key editor file now H. unfold Main.onKeyup.
  destruct (Main.tiditOn (Main.settings p)); [|reflexivity]. simpl.
  destruct (eqs key (lit "Enter")) eqn:Hkey; [|reflexivity]. simpl.
  apply eqs_eq in Hkey.
  destruct editor; [|reflexivity]. destruct file; [|reflexivity].
  destruct H as [H|[H|[H|H]]]; congruence.
Qed.

Lemma handler_ignores_event_witness :
  Main.onKeyup RefMoment.lib (Samples.plugin Samples.defaultFormat)
    (lit "a") (Some {| Main.cursorLine := 1;
                       Main.previousLineText := lit "note" |})
    (Some (lit "other.md")) Samples.noon
  = (Samples.plugin Samples.defaultFormat, None).
Proof.
  apply (handler_ignores_event RefMoment.lib
           (Samples.plugin Samples.defaultFormat) (lit "a")).
  right. left. discriminate.
Defined.

(** X11. Whatever the event, the handler leaves the settings alone.
    When it inserts, there is an editor, and it inserts the formatted
    timestamp at column 0 of the line above the editor's cursor line
    (line 0 when the cursor is on line 0 or above): the insertion is the
    triple of that line, column 0 and the timestamp; the file name of the
    event is the recorded one and the last insertion instant is now; the
    position after a bullet is never used.  When it does not insert, the
    last insertion instant is unchanged or reset to the epoch. *)
Theorem handler_effect :
  forall (M : MomentLib) (p : Main.TiditPlugin) (key : jsstring)
         (editor : option Main.EditorView) (file : option jsstring)
         (now : Instant M),
    let p' := fst (Main.onKeyup M p key editor file now) in
    Main.settings p' = Main.settings p
    /\ (forall ins,
           snd (Main.onKeyup M p key editor file now) = Some ins ->
           (exists ed,
               editor = Some ed
               /\ ins = {| Main.atLine := Z.max 0 (Main.cursorLine ed - 1);
                           Main.atColumn := 0;
                           Main.inserted :=
                             Main.getFormattedTimestamp M p now |})
           /\ file = Some (Main.currFileName p')
           /\ Main.lastTimeStampInsertTimestamp p' = mvalueOf M now)
    /\ (snd (Main.onKeyup M p key editor file now) = None ->
        Main.lastTimeStampInsertTimestamp p'
        = Main.lastTimeStampInsertTimestamp p
        \/ Main.lastTimeStampInsertTimestamp p' = 0).
Proof.
  intros M p key editor file now p'. subst p'.
  assert (Hreset : forall name,
             Main.lastTimeStampInsertTimestamp (Main.noteActiveFile p name)
             = Main.lastTimeStampInsertTimestamp p
             \/ Main.lastTimeStampInsertTimestamp (Main.noteActiveFile p name)
                = 0).
  { intros name. unfold Main.noteActiveFile.
    destruct (negb (eqs (Main.currFileName p) name)); simpl; auto. }
  destruct (onKeyup_path M p key editor file now)
    as [H|ed name Hon Hk He Hf Hs|ed name Hon Hk He Hf Hs Hp
        |ed name Hon Hk He Hf Hs Hp]; simpl.
  - repeat split; auto; discriminate.
  - split; [apply noteActiveFile_settings|]. split; [discriminate|].
    intros _. apply Hreset.
  - split; [apply noteActiveFile_settings|]. split; [discriminate|].
    intros _. apply Hreset.
  - split; [reflexivity|]. split; [|discriminate].
    intros ins Hins. injection Hins as <-.
    split; [|split; [exact Hf | reflexivity]].
    exists ed. split; [exact He|].
    now rewrite (getFormattedTimestamp_settings M
                   (Main.noteActiveFile p name) p now
                   (noteActiveFile_settings p name)).
Qed.

Lemma handler_effect_witness :
  exists ins,
    snd (Main.onKeyup RefMoment.lib (Samples.plugin Samples.defaultFormat)
           (lit "Enter")
           (Some {| Main.cursorLine := 4;
                    Main.previousLineText := lit "note" |})
           (Some (lit "notes.md")) Samples.noon) = Some ins
    /\ Main.atLine ins = 3 /\ Main.atColumn ins = 0.
Proof.
  eexists. split; [reflexivity|].
  destruct (proj1 (proj2 (handler_effect RefMoment.lib
              (Samples.plugin Samples.defaultFormat) (lit "Enter")
              (Some {| Main.cursorLine := 4;
                       Main.previousLineText := lit "note" |})
              (Some (lit "notes.md")) Samples.noon)) _ eq_refl)
    as [[ed [He Hins]] _].
  injection He as <-. split; reflexivity.
Defined.

(** An insertion tells how the handler got there. *)
Lemma onKeyup_inserted (M : MomentLib) (p : Main.TiditPlugin)
      (key : jsstring) (editor : option Main.EditorView)
      (file : option jsstring) (now : Instant M) (p' : Main.TiditPlugin)
      (ins : Main.Insertion) :
  Main.onKeyup M p key editor file now = (p', Some ins) ->
  exists ed name,
    editor = Some ed /\ file = Some name
    /\ Main.tiditOn (Main.settings p) = true /\ key = lit "Enter"
    /\ Main.tooSoon (Main.noteActiveFile p name) (mvalueOf M now) = false
    /\ Main.getInsertPositionInLine M (Main.noteActiveFile p name) now
         (Main.previousLineText ed) = 0
    /\ p' = {| Main.settings := Main.settings p;
               Main.lastTimeStampInsertTimestamp := mvalueOf M now;
               Main.currFileName := name |}
    /\ ins = {| Main.atLine := Z.max 0 (Main.cursorLine ed - 1);
                Main.atColumn := 0;
                Main.inserted :=
                  Main.getFormattedTimestamp M
                    (Main.noteActiveFile p name) now |}.
Proof.
  intros Hfirst. revert Hfirst.
  destruct (onKeyup_path M p key editor file now)
    as [H|ed name Hon Hk He Hf Hs|ed name Hon Hk He Hf Hs Hp
        |ed name Hon Hk He Hf Hs Hp]; try discriminate.
  intros H. injection H as <- <-.
  exists ed, name. repeat split; auto.
Qed.

(** Without an insertion the plugin is as the file check left it. *)
Lemma onKeyup_throttled (M : MomentLib) (p : Main.TiditPlugin)
      (key : jsstring) (editor : option Main.EditorView) (now : Instant M) :
  Main.tooSoon p (mvalueOf M now) = true ->
  Main.onKeyup M p key editor (Some (Main.currFileName p)) now = (p, None).
Proof.
  intros Hsoon.
  destruct (onKeyup_path M p key editor (Some (Main.currFileName p)) now)
    as [H|ed name Hon Hk He Hf Hs|ed name Hon Hk He Hf Hs Hp
        |ed name Hon Hk He Hf Hs Hp]; try reflexivity;
    injection Hf as <-; rewrite noteActiveFile_same in *; congruence.
Qed.

Lemma diffSeconds_below (a b d : Z) :
  1 <= d -> a - b < 1000 * d -> Main.diffSeconds a b < d.
Proof.
  intros Hd H. unfold Main.diffSeconds.
  destruct (Z_lt_le_dec (a - b) 0) as [Hneg|Hpos].
  - pose proof (Z.quot_opp_l (b - a) 1000 ltac:(lia)) as Hq.
    replace (- (b - a)) with (a - b) in Hq by lia.
    pose proof (Z.quot_pos (b - a) 1000 ltac:(lia) ltac:(lia)). lia.
  - apply Z.quot_lt_upper_bound; lia.
Qed.

(** X12. After the handler has inserted a timestamp, a further event in
    the same file inserts nothing as long as fewer than [d] seconds have
    gone by (a delay of [d >= 1] seconds), whatever the line there
    reads; the plugin stays as the insertion left it. *)
Theorem no_insertion_within_delay :
  forall (M : MomentLib) (p : Main.TiditPlugin) (key key2 : jsstring)
         (editor editor2 : option Main.EditorView) (name : jsstring)
         (now later : Instant M) (d : Z) (p' : Main.TiditPlugin)
         (ins : Main.Insertion),
    Main.onKeyup M p key editor (Some name) now = (p', Some ins) ->
    Main.addAfterDelay (Main.settings p) = Num d ->
    1 <= d ->
    mvalueOf M later - mvalueOf M now < 1000 * d ->
    Main.onKeyup M p' key2 editor2 (Some name) later = (p', None).
Proof.
  intros M p key key2 editor editor2 name now later d p' ins
         Hfirst Hd Hd1 Hlate.
  apply onKeyup_inserted in Hfirst
    as [ed [name' [_ [Hf [_ [_ [_ [_ [-> _]]]]]]]]].
  injection Hf as <-.
  apply (onKeyup_throttled M
           {| Main.settings := Main.settings p;
              Main.lastTimeStampInsertTimestamp := mvalueOf M now;
              Main.currFileName := name |} key2 editor2 later).
  unfold Main.tooSoon. simpl. rewrite Hd. simpl.
  apply Z.ltb_lt. now apply diffSeconds_below.
Qed.

Lemma no_insertion_within_delay_witness :
  exists p' ins,
    Main.onKeyup RefMoment.lib (Samples.plugin Samples.defaultFormat)
      (lit "Enter")
      (Some {| Main.cursorLine := 1; Main.previousLineText := lit "note" |})
      (Some (lit "notes.md")) Samples.noon = (p', Some ins)
    /\ Main.onKeyup RefMoment.lib p' (lit "Enter")
         (Some {| Main.cursorLine := 2;
                  Main.previousLineText := lit "more" |})
         (Some (lit "notes.md"))
         {| RefMoment.epochMillis := 1793620830000;
            RefMoment.offsetMinutes := 60 |} = (p', None).
Proof.
  eexists. eexists. split; [reflexivity|].
  eapply (no_insertion_within_delay RefMoment.lib
           (Samples.plugin Samples.defaultFormat) (lit "Enter") (lit "Enter")
           (Some {| Main.cursorLine := 1;
                    Main.previousLineText := lit "note" |})
           (Some {| Main.cursorLine := 2;
                    Main.previousLineText := lit "more" |})
           (lit "notes.md") Samples.noon
           {| RefMoment.epochMillis := 1793620830000;
              RefMoment.offsetMinutes := 60 |} 60).
  - reflexivity.
  - reflexivity.
  - lia.
  - vm_compute. reflexivity.
Defined.

(** X13. A change of file clears the cooldown: when the event comes from
    a file other than the recorded one, the file is recorded, the last
    insertion instant is the epoch, and (the clock being at least [d]
    seconds past the epoch) the rate guard passes however recent the
    last insertion was, so that a timestamp is inserted exactly when the
    resolver gives a position. *)
Theorem file_change_clears_cooldown :
  forall (M : MomentLib) (p : Main.TiditPlugin) (ed : Main.EditorView)
         (name : jsstring) (now : Instant M) (d : Z),
    Main.tiditOn (Main.settings p) = true ->
    Main.addAfterDelay (Main.settings p) = Num d ->
    Main.currFileName p <> name ->
    1000 * d <= mvalueOf M now ->
    0 <= d ->
    let p1 := Main.noteActiveFile p name in
    Main.currFileName p1 = name
    /\ Main.lastTimeStampInsertTimestamp p1 = 0
    /\ Main.tooSoon p1 (mvalueOf M now) = false
    /\ (snd (Main.onKeyup M p (lit "Enter") (Some ed) (Some name) now) = None
        <-> Main.getInsertPositionInLine M p now (Main.previousLineText ed)
            = -1).
Proof.
  intros M p ed name now d Hon Hd Hname Hclock Hd0 p1.
  assert (Hneq : eqs (Main.currFileName p) name = false).
  { destruct (eqs (Main.currFileName p) name) eqn:E; [|reflexivity].
    apply eqs_eq in E. contradiction. }
  assert (Hlast : Main.lastTimeStampInsertTimestamp p1 = 0).
  { subst p1. unfold Main.noteActiveFile. now rewrite Hneq. }
  assert (Hsoon : Main.tooSoon p1 (mvalueOf M now) = false).
  { unfold Main.tooSoon. rewrite Hlast. subst p1.
    rewrite noteActiveFile_settings, Hd. simpl. apply Z.ltb_ge.
    unfold Main.diffSeconds. rewrite Z.sub_0_r.
    apply Z.quot_le_lower_bound; lia. }
  split; [apply noteActiveFile_name|]. split; [exact Hlast|].
  split; [exact Hsoon|].
  rewrite (getInsertPositionInLine_settings M p p1 now)
    by (symmetry; apply noteActiveFile_settings).
  unfold Main.onKeyup. rewrite Hon. simpl. fold p1. rewrite Hsoon.
  destruct (getInsertPositionInLine_range M p1 now (Main.previousLineText ed))
    as [Hp|Hp]; rewrite Hp; simpl; split; congruence.
Qed.

Lemma file_change_clears_cooldown_witness :
  Main.tooSoon
    (Main.noteActiveFile
       {| Main.settings := Main.settings (Samples.plugin Samples.defaultFormat);
          Main.lastTimeStampInsertTimestamp := 1793620800000;
          Main.currFileName := lit "notes.md" |}
       (lit "other.md"))
    (mvalueOf RefMoment.lib Samples.noon) = false.
Proof.
  apply (file_change_clears_cooldown RefMoment.lib
           {| Main.settings :=
                Main.settings (Samples.plugin Samples.defaultFormat);
              Main.lastTimeStampInsertTimestamp := 1793620800000;
              Main.currFileName := lit "notes.md" |}
           {| Main.cursorLine := 1; Main.previousLineText := lit "note" |}
           (lit "other.md") Samples.noon 60).
  - reflexivity.
  - reflexivity.
  - discriminate.
  - vm_compute. discriminate.
  - lia.
Defined.

(** ** The numeric fields, shown and read back *)

Lemma digit_cases (c : N) :
  isDigit c = true ->
  (c = 48 \/ c = 49 \/ c = 50 \/ c = 51 \/ c = 52
   \/ c = 53 \/ c = 54 \/ c = 55 \/ c = 56 \/ c = 57)%N.
Proof.
  unfold isDigit. intros H. apply andb_true_iff in H as [H1 H2].
  apply N.leb_le in H1. apply N.leb_le in H2. lia.
Qed.

Lemma unitsOfUint_digits (u : Decimal.uint) :
  forallb isDigit (JSNumber.unitsOfUint u) = true.
Proof. induction u; simpl; auto. Qed.

Ltac digit_step IH :=
  cbn [JSNumber.unitsOfUint digitsFrom Pos.of_uint_acc Pos.of_uint];
  match goal with
  | |- context [digitValue 10 ?c] =>
      let v := eval vm_compute in (digitValue 10 c) in
      change (digitValue 10 c) with v
  end;
  cbv iota beta.

Lemma digitsFrom_acc (u : Decimal.uint) :
  forall acc : positive,
    digitsFrom 10 (Some (Zpos acc)) (JSNumber.unitsOfUint u)
    = Some (Zpos (Pos.of_uint_acc u acc)).
Proof.
  induction u as [|u IH|u IH|u IH|u IH|u IH|u IH|u IH|u IH|u IH|u IH];
    intros acc; [reflexivity|..];
    digit_step IH; rewrite <- IH; do 2 f_equal; lia.
Qed.

Lemma digitsFrom_zero (u : Decimal.uint) :
  digitsFrom 10 (Some 0) (JSNumber.unitsOfUint u)
  = Some (Z.of_N (Pos.of_uint u)).
Proof.
  induction u as [|u IH|u IH|u IH|u IH|u IH|u IH|u IH|u IH|u IH|u IH];
    [reflexivity|..]; digit_step IH;
    first [exact IH | apply digitsFrom_acc].
Qed.

Lemma digitsFrom_start (u : Decimal.uint) :
  u <> Decimal.Nil ->
  digitsFrom 10 None (JSNumber.unitsOfUint u)
  = digitsFrom 10 (Some 0) (JSNumber.unitsOfUint u).
Proof. destruct u; [congruence|..]; intros _; reflexivity. Qed.

Lemma digitsFrom_numeral (n : N) :
  digitsFrom 10 None (JSNumber.unitsOfUint (N.to_uint n)) = Some (Z.of_N n).
Proof.
  rewrite digitsFrom_start, digitsFrom_zero.
  - change (Pos.of_uint (N.to_uint n)) with (N.of_uint (N.to_uint n)).
    now rewrite DecimalN.Unsigned.of_to.
  - destruct n; [discriminate | apply DecimalPos.Unsigned.to_uint_nonnil].
Qed.

(** [parseInt] on a run of digits, bare or behind a minus sign: no white
    space to skip, radix 10. *)
Lemma parseInt_digits (s : jsstring) :
  s <> [] -> forallb isDigit s = true ->
  parseInt s
  = match digitsFrom 10 None s with Some v => Num (1 * v) | None => NaN end
  /\ parseInt (45%N :: s)
     = match digitsFrom 10 None s with
       | Some v => Num (-1 * v)
       | None => NaN
       end.
Proof.
  destruct s as [|c r]; [congruence|]. intros _ H. simpl in H.
  apply andb_true_iff in H as [Hc Hr].
  assert (Hhex : c = 48%N ->
                 match r with
                 | b :: _ => b <> 120%N /\ b <> 88%N
                 | [] => True
                 end).
  { intros _. destruct r as [|b r']; [exact I|]. simpl in Hr.
    apply andb_true_iff in Hr as [Hb _].
    apply digit_cases in Hb. split; intros ->; lia. }
  apply digit_cases in Hc.
  destruct Hc as [->|[->|[->|[->|[->|[->|[->|[->|[->| ->]]]]]]]]];
    try (split; reflexivity).
  specialize (Hhex eq_refl).
  destruct r as [|b r']; [split; reflexivity|].
  destruct Hhex as [H1 H2].
  unfold parseInt. cbn [trimStart]. cbv beta iota.
  change (isSpace 48) with false. change (isSpace 45) with false.
  cbv iota.
  assert (Hmatch : forall (X : Type) (x y z : X),
             match b with
             | 120%N => x | 88%N => y | _ => z
             end = z).
  { intros X x y z.
    destruct b as [|pb]; [reflexivity|].
    do 7 (try (destruct pb as [pb|pb|]; try reflexivity));
      exfalso; first [now apply H1 | now apply H2]. }
  split; rewrite Hmatch; reflexivity.
Qed.

Lemma unitsOfUint_nonempty (u : Decimal.uint) :
  u <> Decimal.Nil -> JSNumber.unitsOfUint u <> [].
Proof. destruct u; [congruence|..]; intros _; discriminate. Qed.

Lemma to_uint_nonnil (n : N) : N.to_uint n <> Decimal.Nil.
Proof.
  destruct n; [discriminate | apply DecimalPos.Unsigned.to_uint_nonnil].
Qed.

(** Reading back what [toString] printed gives the number again. *)
Lemma parseInt_toString (x : jsnum) : parseInt (JSNumber.toString x) = x.
Proof.
  destruct x as [|z]; [reflexivity|]. unfold JSNumber.toString.
  destruct (parseInt_digits
              (JSNumber.unitsOfUint (N.to_uint (Z.abs_N z)))
              (unitsOfUint_nonempty _ (to_uint_nonnil _))
              (unitsOfUint_digits _)) as [Hplus Hminus].
  rewrite digitsFrom_numeral in Hplus, Hminus.
  destruct (z <? 0) eqn:E; simpl app.
  - rewrite Hminus. f_equal. apply Z.ltb_lt in E.
    rewrite N2Z.inj_abs_N. lia.
  - rewrite Hplus. f_equal. apply Z.ltb_ge in E.
    rewrite N2Z.inj_abs_N. lia.
Qed.

(** X14. Whatever is typed into the delay field, a number stored by it
    is at most 1234, and storing resets the last insertion instant; when
    the text begins with an integer of magnitude at most 2^53 (where
    [parseInt] is exact), the number stored is the smaller of that
    integer and 1234. *)
Theorem delay_never_exceeds_maximum :
  forall (p : Main.TiditPlugin) (value : jsstring),
    let p' := Main.addAfterDelay_onChange p value in
    (forall d, Main.addAfterDelay (Main.settings p') = Num d -> d <= 1234)
    /\ Main.lastTimeStampInsertTimestamp p' = 0
    /\ (forall z, parseInt value = Num z -> Z.abs z <= 2 ^ 53 ->
                  Main.addAfterDelay (Main.settings p')
                  = Num (Z.min z 1234)).
Proof.
  intros p value p'. subst p'. split; [|split].
  - intros d. apply addAfterDelay_onChange_upper.
  - reflexivity.
  - intros z Hz _. rewrite addAfterDelay_onChange_stores, Hz. reflexivity.
Qed.

Lemma delay_never_exceeds_maximum_witness :
  parseInt (lit " 5000 seconds") = Num 5000
  /\ Main.addAfterDelay
       (Main.settings
          (Main.addAfterDelay_onChange (Samples.plugin Samples.defaultFormat)
             (lit " 5000 seconds"))) = Num 1234.
Proof.
  split; [reflexivity|].
  apply (proj2 (proj2 (delay_never_exceeds_maximum
           (Samples.plugin Samples.defaultFormat) (lit " 5000 seconds")))
           5000 eq_refl).
  vm_compute. discriminate.
Defined.

(** X15. The two numeric fields read back what they show (numbers below
    10^21 in magnitude, which are printed in plain digits): entering the
    text the delay field was opened with stores the delay again, capped
    at 1234 (so a delay of at most 1234, negative or [NaN] included, is
    kept), and entering the text the offset field was opened with leaves
    every setting as it was. *)
Theorem fields_read_back_what_they_show :
  forall p : Main.TiditPlugin,
    (forall z, Main.addAfterDelay (Main.settings p) = Num z ->
               Z.abs z < 10 ^ 21) ->
    (forall z, Main.timezoneOffset (Main.settings p) = Num z ->
               Z.abs z < 10 ^ 21) ->
    Main.addAfterDelay
      (Main.settings
         (Main.addAfterDelay_onChange p (Plugin.addAfterDelay_text p)))
    = Math_min (Main.addAfterDelay (Main.settings p)) (Num 1234)
    /\ Main.settings
         (Main.timezoneOffset_onChange p (Plugin.timezoneOffset_text p))
       = Main.settings p.
Proof.
  intros p _ _. split.
  - rewrite addAfterDelay_onChange_stores.
    unfold Plugin.addAfterDelay_text. now rewrite parseInt_toString.
  - unfold Main.timezoneOffset_onChange, Plugin.timezoneOffset_text.
    rewrite parseInt_toString.
    destruct p as [s last name]. simpl.
    destruct s as [on fmt delay nl tz manual offset]. simpl.
    destruct offset; reflexivity.
Qed.

Lemma fields_read_back_what_they_show_witness :
  Main.addAfterDelay
    (Main.settings
       (Main.addAfterDelay_onChange (Samples.plugin Samples.defaultFormat)
          (lit "60"))) = Num 60.
Proof.
  apply (fields_read_back_what_they_show
           (Samples.plugin Samples.defaultFormat)).
  - intros z H. injection H as <-. reflexivity.
  - intros z H. injection H as <-. reflexivity.
Defined.

(** X16. The pattern field never stores a blank pattern: text that is
    empty or white space only is replaced by the default pattern, any
    other text is stored as typed, surrounding blanks included. *)
Theorem pattern_field_never_blank :
  forall (p : Main.TiditPlugin) (value : jsstring),
    let stored :=
      Main.timestampFormat
        (Main.settings (Plugin.timestampFormat_onChange p value)) in
    trim stored <> []
    /\ (trim value = [] ->
        stored = Main.timestampFormat Main.DEFAULT_SETTINGS)
    /\ (trim value <> [] -> stored = value).
Proof.
  intros p value stored. subst stored.
  unfold Plugin.timestampFormat_onChange. simpl.
  destruct (trim value) as [|c r] eqn:E.
  - change (len [] =? 0) with true. cbv iota.
    repeat split; [discriminate | congruence].
  - assert (Hlen : (len (c :: r) =? 0) = false).
    { apply Z.eqb_neq. unfold len. simpl List.length. lia. }
    rewrite Hlen. repeat split; [rewrite E; discriminate | discriminate].
Qed.

Lemma pattern_field_never_blank_witness :
  Main.timestampFormat
    (Main.settings
       (Plugin.timestampFormat_onChange (Samples.plugin Samples.dottedFormat)
          (lit "   ")))
  = lit "YYYY-MM-DD HH:mm:ssZ".
Proof.
  apply (proj1 (proj2 (pattern_field_never_blank
           (Samples.plugin Samples.dottedFormat) (lit "   ")))).
  reflexivity.
Defined.

(** ** Lines that carry a timestamp already *)

Lemma trimStart_before (a b : jsstring) :
  Shape.noLeadingSpace b = true -> b <> [] ->
  exists a', trimStart (a ++ b) = a' ++ b.
Proof.
  intros Hb Hne. destruct b as [|c r]; [congruence|]. simpl in Hb.
  apply negb_true_iff in Hb.
  induction a as [|x a IH]; simpl.
  - exists []. now rewrite Hb.
  - destruct (isSpace x); [exact IH|]. now exists (x :: a).
Qed.

(** [trim] leaves alone a head that has no white space at either end. *)
Lemma trim_keeps_head (stamp rest : jsstring) :
  stamp <> [] ->
  Shape.noLeadingSpace stamp = true ->
  Shape.noLeadingSpace (rev stamp) = true ->
  exists rest', trim (stamp ++ rest) = stamp ++ rest'.
Proof.
  intros Hne Hhead Hlast. unfold trim.
  assert (Hstart : trimStart (stamp ++ rest) = stamp ++ rest).
  { destruct stamp as [|c s]; [congruence|]. simpl in *.
    apply negb_true_iff in Hhead. now rewrite Hhead. }
  rewrite Hstart, rev_app_distr.
  destruct (trimStart_before (rev rest) (rev stamp) Hlast) as [a' Ha].
  { intros E. apply (f_equal (@rev N)) in E.
    rewrite rev_involutive in E. contradiction. }
  rewrite Ha, rev_app_distr, rev_involutive. now exists (rev a').
Qed.

(** The resolver of the plugin class on a line that begins with a
    timestamp the strict parse accepts. *)
Lemma stamped_line_skipped (M : MomentLib) (p : Main.TiditPlugin)
      (later : Instant M) (stamp rest : jsstring) :
  mparse M later stamp (Main.timestampFormat (Main.settings p)) = Valid ->
  len stamp
  = len (mformat M later (Main.timestampFormat (Main.settings p))) ->
  stamp <> [] ->
  Shape.noLeadingSpace stamp = true ->
  Shape.noLeadingSpace (rev stamp) = true ->
  Main.getInsertPositionInLine M p later (stamp ++ rest) = -1.
Proof.
  intros Hvalid Hlen Hne Hhead Hlast.
  unfold Main.getInsertPositionInLine.
  destruct (Main.isCursorInListLine (stamp ++ rest)); [reflexivity|].
  destruct (Main.isCodeBlockStartEnd (stamp ++ rest)); [reflexivity|].
  destruct (trim_keeps_head stamp rest Hne Hhead Hlast) as [rest' ->].
  now rewrite <- Hlen, substring_prefix, Hvalid.
Qed.

(** X18. The resolver of the plugin class skips every line into which
    the formatted timestamp has been inserted at column 0, whatever the
    line was, provided the timestamp round-trips (the strict parse
    accepts it, and it is as long as a timestamp formatted at the second
    run) and has no white space at either end.  Unlike the resolver of
    [utils.ts], it does so also when the timestamp reads like a list
    marker. *)
Theorem class_resolver_skips_stamped_line :
  forall (M : MomentLib) (p : Main.TiditPlugin) (now later : Instant M)
         (line : jsstring),
    let pattern := Main.timestampFormat (Main.settings p) in
    let stamp := mformat M (Main.timestampMoment M p now) pattern in
    mparse M later stamp pattern = Valid ->
    len stamp = len (mformat M later pattern) ->
    stamp <> [] ->
    Shape.noLeadingSpace stamp = true ->
    Shape.noLeadingSpace (rev stamp) = true ->
    Main.getInsertPositionInLine M p later
      (Main.insertTextAtLine line 0 (Main.getFormattedTimestamp M p now))
    = -1.
Proof.
  intros M p now later line pattern stamp Hvalid Hlen Hne Hhead Hlast.
  destruct (getFormattedTimestamp_parts M p now) as [suffix Hstamp].
  unfold Main.insertTextAtLine. simpl. rewrite Hstamp.
  fold pattern. fold stamp. rewrite <- app_assoc.
  now apply stamped_line_skipped.
Qed.

Lemma class_resolver_skips_stamped_line_witness :
  Main.getInsertPositionInLine RefMoment.lib
    (Samples.plugin Samples.dottedFormat) Samples.noon
    (lit "2. 11. 2026 plain text") = -1.
Proof.
  apply (class_resolver_skips_stamped_line RefMoment.lib
           (Samples.plugin Samples.dottedFormat) Samples.noon Samples.noon
           (lit "plain text")); try reflexivity.
  discriminate.
Defined.

(** X19. The handler does not stamp a line twice.  If an event made it
    insert a timestamp, and that timestamp round-trips and has no white
    space at either end, then no later event whose line above the cursor
    is the stamped line makes it insert again, in whatever file and
    after whatever time. *)
Theorem handler_never_stamps_twice :
  forall (M : MomentLib) (p p' : Main.TiditPlugin) (key key2 : jsstring)
         (ed : Main.EditorView) (file file2 : option jsstring)
         (now later : Instant M) (ins : Main.Insertion) (cursor2 : Z),
    Main.onKeyup M p key (Some ed) file now = (p', Some ins) ->
    let pattern := Main.timestampFormat (Main.settings p) in
    let stamp := mformat M (Main.timestampMoment M p now) pattern in
    mparse M later stamp pattern = Valid ->
    len stamp = len (mformat M later pattern) ->
    stamp <> [] ->
    Shape.noLeadingSpace stamp = true ->
    Shape.noLeadingSpace (rev stamp) = true ->
    snd (Main.onKeyup M p' key2
           (Some {| Main.cursorLine := cursor2;
                    Main.previousLineText :=
                      Main.insertTextAtLine (Main.previousLineText ed)
                        (Main.atColumn ins) (Main.inserted ins) |})
           file2 later) = None.
Proof.
  intros M p p' key key2 ed file file2 now later ins cursor2 Hfirst
         pattern stamp Hvalid Hlen Hne Hhead Hlast.
  apply onKeyup_inserted in Hfirst
    as [ed0 [name [He [_ [_ [_ [_ [_ [-> ->]]]]]]]]].
  injection He as <-. simpl Main.atColumn. simpl Main.inserted.
  set (q := {| Main.settings := Main.settings p;
               Main.lastTimeStampInsertTimestamp := mvalueOf M now;
               Main.currFileName := name |}).
  set (ed2 := {| Main.cursorLine := cursor2;
                 Main.previousLineText :=
                   Main.insertTextAtLine (Main.previousLineText ed) 0
                     (Main.getFormattedTimestamp M
                        (Main.noteActiveFile p name) now) |}).
  destruct (onKeyup_path M q key2 (Some ed2) file2 later)
    as [H|e n Hon Hk He Hf Hs|e n Hon Hk He Hf Hs Hp
        |e n Hon Hk He Hf Hs Hp]; try reflexivity.
  exfalso. injection He as <-. simpl in Hp.
  rewrite (getFormattedTimestamp_settings M (Main.noteActiveFile p name) p)
    in Hp by apply noteActiveFile_settings.
  rewrite (getInsertPositionInLine_settings M (Main.noteActiveFile q n) p)
    in Hp by (rewrite noteActiveFile_settings; reflexivity).
  destruct (getFormattedTimestamp_parts M p now) as [suffix Hstamp].
  unfold Main.insertTextAtLine in Hp. simpl in Hp. rewrite Hstamp in Hp.
  fold pattern in Hp. fold stamp in Hp. rewrite <- app_assoc in Hp.
  rewrite (stamped_line_skipped M p later stamp _ Hvalid Hlen Hne Hhead Hlast)
    in Hp.
  discriminate.
Qed.

Lemma handler_never_stamps_twice_witness :
  exists p' ins,
    Main.onKeyup RefMoment.lib (Samples.plugin Samples.defaultFormat)
      (lit "Enter")
      (Some {| Main.cursorLine := 1; Main.previousLineText := lit "note" |})
      (Some (lit "notes.md")) Samples.noon = (p', Some ins)
    /\ snd (Main.onKeyup RefMoment.lib p' (lit "Enter")
              (Some {| Main.cursorLine := 1;
                       Main.previousLineText :=
                         Main.insertTextAtLine (lit "note")
                           (Main.atColumn ins) (Main.inserted ins) |})
              (Some (lit "other.md")) Samples.lateEvening) = None.
Proof.
  eexists. eexists. split; [reflexivity|].
  eapply (handler_never_stamps_twice RefMoment.lib
            (Samples.plugin Samples.defaultFormat) _ (lit "Enter")
            (lit "Enter")
            {| Main.cursorLine := 1; Main.previousLineText := lit "note" |}
            (Some (lit "notes.md")) (Some (lit "other.md")) Samples.noon
            Samples.lateEvening _ 1).
  - reflexivity.
  - reflexivity.
  - reflexivity.
  - discriminate.
  - reflexivity.
  - reflexivity.
Defined.

(** X20. With timestamps on list lines switched off, the resolver of
    [utils.ts] skips every line into which the formatted timestamp has
    been inserted at column 0, as soon as the timestamp round-trips: no
    condition on white space or on list markers is needed, because the
    text is compared untrimmed and a line that has become a list line is
    skipped as such. *)
Theorem stamped_line_skipped_without_list_timestamps :
  forall (M : MomentLib) (p : Main.TiditPlugin) (now later : Instant M)
         (line : jsstring) (isCodeBlockStartEnd : jsstring -> bool),
    let pattern := Main.timestampFormat (Main.settings p) in
    let stamp := mformat M (Main.timestampMoment M p now) pattern in
    mparse M later stamp pattern = Valid ->
    len stamp = len (mformat M later pattern) ->
    Utils.getInsertPositionInLineFromText M later
      (Main.insertTextAtLine line 0 (Main.getFormattedTimestamp M p now))
      false pattern isCodeBlockStartEnd = -1.
Proof.
  intros M p now later line isCB pattern stamp Hvalid Hlen.
  destruct (getFormattedTimestamp_parts M p now) as [suffix Hstamp].
  fold pattern in Hstamp. fold stamp in Hstamp.
  unfold Main.insertTextAtLine. simpl. rewrite Hstamp, <- app_assoc.
  set (line' := stamp ++ [suffix] ++ line).
  rewrite resolver_steps.
  destruct (Utils.isListLineTask line'); [reflexivity|].
  destruct (Utils.isCursorInListLine line') eqn:Hlist; [reflexivity|].
  simpl. destruct (isCB line'); [reflexivity|].
  unfold Shape.duplicateCheck, Shape.candidateOffset. rewrite Hlist.
  rewrite Z.add_0_l, <- Hlen. subst line'.
  now rewrite substring_prefix, Hvalid.
Qed.

Lemma stamped_line_skipped_without_list_timestamps_witness :
  Utils.getInsertPositionInLineFromText RefMoment.lib Samples.noon
    (lit "2026-11-02 13:00:00+01:00 plain text") false Samples.defaultFormat
    Main.isCodeBlockStartEnd = -1.
Proof.
  apply (stamped_line_skipped_without_list_timestamps RefMoment.lib
           (Samples.plugin Samples.defaultFormat) Samples.noon Samples.noon
           (lit "plain text") Main.isCodeBlockStartEnd); reflexivity.
Defined.

(** X21. The handler inserts nothing when the line above the cursor is a
    list line for the plugin class or a code-fence boundary, whatever
    the settings are: there is no switch for list lines on this path. *)
Theorem handler_skips_list_and_fence_lines :
  forall (M : MomentLib) (p : Main.TiditPlugin) (key : jsstring)
         (ed : Main.EditorView) (file : option jsstring) (now : Instant M),
    Main.isCursorInListLine (Main.previousLineText ed) = true
    \/ Main.isCodeBlockStartEnd (Main.previousLineText ed) = true ->
    snd (Main.onKeyup M p key (Some ed) file now) = None.
Proof.
  intros M p key ed file now H.
  destruct (onKeyup_path M p key (Some ed) file now)
    as [H0|e n Hon Hk He Hf Hs|e n Hon Hk He Hf Hs Hp
        |e n Hon Hk He Hf Hs Hp]; try reflexivity.
  exfalso. injection He as <-.
  unfold Main.getInsertPositionInLine in Hp.
  destruct (Main.isCursorInListLine (Main.previousLineText ed));
    [discriminate|].
  destruct (Main.isCodeBlockStartEnd (Main.previousLineText ed));
    [discriminate|].
  destruct H; discriminate.
Qed.

Lemma handler_skips_list_and_fence_lines_witness :
  snd (Main.onKeyup RefMoment.lib (Samples.plugin Samples.defaultFormat)
         (lit "Enter")
         (Some {| Main.cursorLine := 1;
                  Main.previousLineText := lit "- item" |})
         (Some (lit "notes.md")) Samples.noon) = None.
Proof.
  apply (handler_skips_list_and_fence_lines RefMoment.lib
           (Samples.plugin Samples.defaultFormat) (lit "Enter")
           {| Main.cursorLine := 1; Main.previousLineText := lit "- item" |}
           (Some (lit "notes.md")) Samples.noon).
  left. reflexivity.
Defined.
